(** * The documentation-site access guard of [src/middleware.ts]

    A shallow embedding of the Next.js middleware that protects the
    documentation routes: the request path is classified, guarded requests
    are checked against the [/api/users/me] endpoint, and the answer of that
    endpoint is turned into one of three responses.

    JavaScript values are an inductive type, objects and header tables are
    finite maps, and the two effects of the function (the outbound [fetch]
    and reading the body with [json()]) are recorded in a trace by a small
    state-and-exception monad, so that "no call is made" and "exactly one
    call is made" are statements about that trace. *)

From Stdlib Require Import ZArith String Ascii List Bool Lia.
From Stdlib Require Import Floats.SpecFloat.
From stdpp Require Import base option gmap strings.

Set Warnings "-register-all".
Local Open Scope string_scope.
Local Open Scope list_scope.
Local Open Scope Z_scope.

(** ** JavaScript values *)

(** What [JSON.parse] can build, plus [undefined], which a property read
    yields for a missing key. Numbers are IEEE doubles; only their
    truthiness is ever inspected. *)
Inductive value : Type :=
  | VUndefined
  | VNull
  | VBool (b : bool)
  | VNumber (x : spec_float)
  | VString (s : string)
  | VArray (elems : list value)
  | VObject (props : gmap string value).

(** The exceptions that can be raised inside the [try] block. *)
Inductive Error : Type :=
  | TypeError
  | SyntaxError
  | NetworkError.

(** The completion of an expression: a value, or a thrown exception. *)
Inductive Completion (A : Type) : Type :=
  | Normal (a : A)
  | Throw (e : Error).
Arguments Normal {A} a.
Arguments Throw {A} e.

#[global] Instance Completion_ret : MRet Completion := fun A a => Normal a.
#[global] Instance Completion_bind : MBind Completion := fun A B f c =>
  match c with
  | Normal a => f a
  | Throw e => Throw e
  end.

#[global] Instance Completion_fmap : FMap Completion := fun A B f c =>
  match c with
  | Normal a => Normal (f a)
  | Throw e => Throw e
  end.

(** [a && b] and [a || b] of JavaScript in a condition: the right operand
    is evaluated only when the left one does not decide. *)
Definition js_and (a b : Completion bool) : Completion bool :=
  a ≫= λ x : bool, if x then b else mret false.
Definition js_or (a b : Completion bool) : Completion bool :=
  a ≫= λ x : bool, if x then mret true else b.
Infix "&&&" := js_and (at level 40, left associativity).
Infix "|||" := js_or (at level 50, left associativity).

(** [ToBoolean]. *)
Definition truthy (v : value) : bool :=
  match v with
  | VUndefined | VNull => false
  | VBool b => b
  | VNumber (S754_zero _) | VNumber S754_nan => false
  | VNumber _ => true
  | VString s => negb (String.eqb s "")
  | VArray _ | VObject _ => true
  end.

(** [typeof v]. *)
Definition typeof (v : value) : string :=
  match v with
  | VUndefined => "undefined"
  | VNull => "object"
  | VBool _ => "boolean"
  | VNumber _ => "number"
  | VString _ => "string"
  | VArray _ | VObject _ => "object"
  end.

(** [key in v], for the keys the middleware tests ([user], [docs], [doc],
    [id]): none of them is inherited from [Object.prototype] or
    [Array.prototype], and an array owns only its indices and [length], so
    the test is an own-property test. On a primitive the operator throws. *)
Definition js_in (key : string) (v : value) : Completion bool :=
  match v with
  | VObject props => Normal (bool_decide (is_Some (props !! key)))
  | VArray _ => Normal false
  | _ => Throw TypeError
  end.

(** [v.key], for the same keys and [role]: [undefined] when the key is
    missing, an exception on [null] and [undefined]. *)
Definition get (v : value) (key : string) : Completion value :=
  match v with
  | VUndefined | VNull => Throw TypeError
  | VObject props => Normal (default VUndefined (props !! key))
  | _ => Normal VUndefined
  end.

(** [Array.isArray(v)]. *)
Definition isArray (v : value) : bool :=
  match v with
  | VArray _ => true
  | _ => false
  end.

(** The elements of an array; [a.length] and [a[i]] are read only behind the
    [Array.isArray] test. *)
Definition elements (v : value) : list value :=
  match v with
  | VArray elems => elems
  | _ => []
  end.
Definition js_length (v : value) : Z := Z.of_nat (length (elements v)).
Definition js_index (v : value) (i : nat) : value :=
  nth i (elements v) VUndefined.

(** [v === s] for a string literal [s]: no coercion, no case folding. *)
Definition strict_eq_string (v : value) (s : string) : bool :=
  match v with
  | VString t => String.eqb t s
  | _ => false
  end.

(** ** Strings *)

(** [s.startsWith(p)]. *)
Definition startsWith (s p : string) : bool := String.prefix p s.

(** [s.includes(needle)]: [needle] occurs at some position of [s]. *)
Fixpoint includes (s needle : string) : bool :=
  String.prefix needle s ||
  match s with
  | EmptyString => false
  | String _ rest => includes rest needle
  end.

(** ** URLs, requests and responses *)

(** A [NextURL]: the parts of the URL it wraps, with the query string as
    the list of its decoded name/value pairs ([URLSearchParams];
    [url.search = ""] empties it), and the two pieces of state the class
    keeps from the path it was built from and puts back when the URL is
    written out: whether that path ended with a slash, and the build id of
    a data request ([/_next/data/<id>/....json]). The repository has no
    framework configuration, so no base path and no locale are modelled. *)
Record URL : Type := mkURL {
  protocol : string;
  hostname : string;
  port : string;
  pathname : string;
  searchParams : list (string * string);
  hash : string;
  trailingSlash : bool;
  buildId : option string
}.

(** [s.endsWith("/")]. *)
Fixpoint endsWithSlash (s : string) : bool :=
  match s with
  | EmptyString => false
  | String c rest =>
      match rest with
      | EmptyString => Ascii.eqb c "/"
      | String _ _ => endsWithSlash rest
      end
  end.

(** [removeTrailingSlash(route)]: one slash at the very end is removed, and
    an empty result is the root. *)
Fixpoint dropTrailingSlash (s : string) : string :=
  match s with
  | EmptyString => EmptyString
  | String c rest =>
      match rest with
      | EmptyString => if Ascii.eqb c "/" then EmptyString else s
      | String _ _ => String c (dropTrailingSlash rest)
      end
  end.
Definition removeTrailingSlash (route : string) : string :=
  if String.eqb (dropTrailingSlash route) "" then "/"
  else dropTrailingSlash route.

(** [parsePath(path)]: the path up to the first [?] or [#], and what
    follows (query and fragment). *)
Fixpoint parsePath (path : string) : string * string :=
  match path with
  | EmptyString => (EmptyString, EmptyString)
  | String c rest =>
      if Ascii.eqb c "?" || Ascii.eqb c "#" then (EmptyString, path)
      else let (before, after) := parsePath rest in (String c before, after)
  end.

(** [addPathPrefix(path, prefix)] and [addPathSuffix(path, suffix)]: a path
    that does not start with a slash, and an empty affix, leave the path as
    it is. *)
Definition addPathPrefix (path prefix : string) : string :=
  if negb (String.prefix "/" path) || String.eqb prefix "" then path
  else let (before, after) := parsePath path in
       String.append prefix (String.append before after).
Definition addPathSuffix (path suffix : string) : string :=
  if negb (String.prefix "/" path) || String.eqb suffix "" then path
  else let (before, after) := parsePath path in
       String.append before (String.append suffix after).

(** [formatPathname()], the path of [url.toString()] and [url.href]: a
    build id wraps the path as a data path; otherwise the path is written
    with a slash at the end exactly when the trailing-slash state is set. *)
Definition formatPathname (u : URL) : string :=
  let hasBuildId :=
    match buildId u with
    | Some id => negb (String.eqb id "")
    | None => false
    end in
  let path :=
    if hasBuildId || negb (trailingSlash u)
    then removeTrailingSlash (pathname u) else pathname u in
  let path :=
    match buildId u with
    | Some id =>
        if negb (String.eqb id "")
        then addPathSuffix (addPathPrefix path (String.append "/_next/data/" id))
               (if String.eqb (pathname u) "/" then "index.json" else ".json")
        else path
    | None => path
    end in
  if negb hasBuildId && trailingSlash u
  then (if negb (endsWithSlash path) then addPathSuffix path "/" else path)
  else removeTrailingSlash path.

(** [searchParams.set(name, v)]: the first pair called [name] takes the
    value, the other pairs of that name are removed; without such a pair
    the new one is appended. *)
Fixpoint searchParams_set (name v : string) (l : list (string * string))
  : list (string * string) :=
  match l with
  | [] => [(name, v)]
  | (n, w) :: rest =>
      if String.eqb n name
      then (name, v) :: List.filter (fun p => negb (String.eqb (fst p) name)) rest
      else (n, w) :: searchParams_set name v rest
  end.

(** [searchParams.getAll(name)] and [searchParams.get(name)]. *)
Definition searchParams_getAll (name : string) (l : list (string * string))
  : list string :=
  map snd (List.filter (fun p => String.eqb (fst p) name) l).
Definition searchParams_get (name : string) (l : list (string * string))
  : option string :=
  head (searchParams_getAll name l).

(** A [Headers] table: [get] is the lookup, [set] the insertion. Names are
    stored in lower case, as the class does. *)
Abbreviation Headers := (gmap string string).

(** The incoming [NextRequest]. *)
Record NextRequest : Type := mkNextRequest {
  nextUrl : URL;
  req_headers : Headers
}.

(** The arguments of the outbound [fetch]. *)
Record FetchRequest : Type := mkFetchRequest {
  fetch_url : URL;
  fetch_method : string;
  fetch_headers : Headers;
  fetch_body : option string
}.

(** The [Response] of the identity endpoint: [json_result] is what
    [json()] completes with (a thrown error when the body does not parse). *)
Record Response : Type := mkResponse {
  status : Z;
  resp_headers : Headers;
  json_result : Completion value
}.

(** [response.ok], as the Fetch standard defines it. *)
Definition ok (r : Response) : bool :=
  (200 <=? status r) && (status r <=? 299).

(** What the middleware returns: [NextResponse.next()],
    [NextResponse.redirect(url)], or [new NextResponse(body, {status})]. *)
Inductive NextResponse : Type :=
  | Next
  | Redirect (location : URL)
  | Plain (body : string) (code : Z).

(** ** Effects *)

Inductive Event : Type :=
  | EvFetch (rq : FetchRequest)
  | EvJson.

(** A computation threads the trace of the effects performed so far and
    completes normally or with an exception. *)
Definition M (A : Type) : Type := list Event → Completion A * list Event.

#[global] Instance M_ret : MRet M := fun A a tr => (Normal a, tr).
#[global] Instance M_bind : MBind M := fun A B f m tr =>
  match m tr with
  | (Normal a, tr') => f a tr'
  | (Throw e, tr') => (Throw e, tr')
  end.

Definition lift {A : Type} (c : Completion A) : M A := fun tr => (c, tr).

(** [try { body } catch (error) { handler }]. *)
Definition try_catch {A : Type} (body : M A) (handler : Error → M A) : M A :=
  fun tr =>
    match body tr with
    | (Normal a, tr') => (Normal a, tr')
    | (Throw e, tr') => handler e tr'
    end.

(** The identity endpoint as the middleware sees it: the completion of
    [fetch] for a given outbound request. *)
Abbreviation Env := (FetchRequest → Completion Response).

Definition fetch (env : Env) (rq : FetchRequest) : M Response :=
  fun tr => (env rq, tr ++ [EvFetch rq]).

Definition json (r : Response) : M value :=
  fun tr => (json_result r, tr ++ [EvJson]).

(** ** The middleware *)

(** The bypass test of lines 9-15. *)
Definition isBypassed (pathname : string) : bool :=
  startsWith pathname "/admin" ||
  startsWith pathname "/api" ||
  startsWith pathname "/_next" ||
  startsWith pathname "/favicon.ico" ||
  startsWith pathname "/demo.mp4".

(** [isFumadocsRoute], lines 20-26. *)
Definition isFumadocsRoute (pathname : string) : bool :=
  startsWith pathname "/docs" ||
  String.eqb pathname "/" ||
  startsWith pathname "/llms.txt" ||
  startsWith pathname "/llms.mdx" ||
  startsWith pathname "/llms-full.txt" ||
  startsWith pathname "/docs-og".

(** The three lines the source repeats before each redirect: clone the
    request URL, point it at the login page, record the requested path.
    The clone is the request URL written out and read back, which restores
    its parts and its trailing-slash and build-id state; the assignment to
    [pathname] changes the path and leaves that state as it is. *)
Definition loginUrl (request : NextRequest) : URL :=
  let u := nextUrl request in
  {| protocol := protocol u;
     hostname := hostname u;
     port := port u;
     pathname := "/admin/login";
     searchParams :=
       searchParams_set "redirect" (pathname (nextUrl request)) (searchParams u);
     hash := hash u;
     trailingSlash := trailingSlash u;
     buildId := buildId u |}.

(** Lines 37-43: the headers of the outbound call. *)
Definition outboundHeaders (request : NextRequest) : Headers :=
  let headers : Headers := ∅ in
  let cookieHeader := req_headers request !! "cookie" in
  let headers :=
    match cookieHeader with
    | Some c => if negb (String.eqb c "") then <["cookie" := c]> headers else headers
    | None => headers
    end in
  <["user-agent" := default "" (req_headers request !! "user-agent")]> headers.

(** Lines 46-48: the URL of the outbound call, a clone of the request URL
    with the path and the query replaced; [fetch] is given its
    [toString()]. *)
Definition apiUrl (request : NextRequest) : URL :=
  let u := nextUrl request in
  {| protocol := protocol u;
     hostname := hostname u;
     port := port u;
     pathname := "/api/users/me";
     searchParams := [];
     hash := hash u;
     trailingSlash := trailingSlash u;
     buildId := buildId u |}.

(** Lines 78-87: the envelope of the response is removed. *)
Definition unwrap (responseData : value) : Completion value :=
  if truthy responseData && String.eqb (typeof responseData) "object" then
    c ← js_in "user" responseData &&& (truthy <$> get responseData "user");
    if (c : bool) then get responseData "user"
    else
      c ← js_in "docs" responseData
          &&& (isArray <$> get responseData "docs")
          &&& ((fun d => 0 <? js_length d) <$> get responseData "docs");
      if (c : bool) then (fun d => js_index d 0) <$> get responseData "docs"
      else
        c ← js_in "doc" responseData &&& (truthy <$> get responseData "doc");
        if (c : bool) then get responseData "doc"
        else mret responseData
  else mret responseData.

(** Line 90: the condition under which the candidate is rejected. *)
Definition notUser (user : value) : Completion bool :=
  mret (negb (truthy user))
  ||| mret (negb (String.eqb (typeof user) "object"))
  ||| (negb <$> js_in "id" user).

(** Lines 36-112: the body of the [try] block. *)
Definition verify (env : Env) (request : NextRequest) : M NextResponse :=
  authResponse ← fetch env
    {| fetch_url := apiUrl request;
       fetch_method := "GET";
       fetch_headers := outboundHeaders request;
       fetch_body := None |};
  if negb (ok authResponse)
     || (status authResponse =? 401) || (status authResponse =? 403)
  then mret (Redirect (loginUrl request))
  else
    let contentType := resp_headers authResponse !! "content-type" in
    if match contentType with
       | Some ct => String.eqb ct "" || negb (includes ct "application/json")
       | None => true
       end
    then mret (Redirect (loginUrl request))
    else
      responseData ← json authResponse;
      user ← lift (unwrap responseData);
      rejected ← lift (notUser user);
      if (rejected : bool) then mret (Redirect (loginUrl request))
      else
        userRole ← lift (get user "role");
        let hasAdminAccess :=
          strict_eq_string userRole "owner" || strict_eq_string userRole "admin" in
        if negb hasAdminAccess
        then mret (Plain "Forbidden: Admin or Owner access required" 403)
        else mret Next.

(** Lines 4-124. *)
Definition middleware (env : Env) (request : NextRequest) : M NextResponse :=
  let pathname := pathname (nextUrl request) in
  if isBypassed pathname then mret Next
  else
    if negb (isFumadocsRoute pathname) then mret Next
    else
      if isFumadocsRoute pathname then
        try_catch (verify env request)
                  (fun error => mret (Redirect (loginUrl request)))
      else mret Next.

(** ** The decision, as the specification words it

    These definitions follow the specification (sections 4.2 and 4.3), not
    the source; the lemmas below relate them to [middleware]. *)

(** A field that is present and truthy. *)
Definition truthyField (props : gmap string value) (key : string) : option value :=
  match props !! key with
  | Some v => if truthy v then Some v else None
  | None => None
  end.

(** The first element of a [docs] field that is a non-empty array. *)
Definition firstOfDocs (props : gmap string value) : option value :=
  match props !! "docs" with
  | Some (VArray (first :: _)) => Some first
  | _ => None
  end.

(** The candidate record by the precedence user, docs, doc, bare value. *)
Definition candidate (parsed : value) : value :=
  match parsed with
  | VObject props =>
      match truthyField props "user" with
      | Some u => u
      | None =>
          match firstOfDocs props with
          | Some first => first
          | None =>
              match truthyField props "doc" with
              | Some d => d
              | None => parsed
              end
          end
      end
  | _ => parsed
  end.

(** A field that is absent, or present with a falsy value; a [docs] field
    that is absent, not an array, or an empty array. *)
Definition FalsyField (props : gmap string value) (key : string) : Prop :=
  ∀ v, props !! key = Some v → truthy v = false.
Definition NoFirstDoc (props : gmap string value) : Prop :=
  ∀ first rest, props !! "docs" ≠ Some (VArray (first :: rest)).

(** A structured record that has an [id] field. *)
Definition isUserRecord (u : value) : bool :=
  match u with
  | VObject props => bool_decide (is_Some (props !! "id"))
  | _ => false
  end.

(** The [role] attribute of a record, [undefined] when it has none. *)
Definition roleOf (u : value) : value :=
  match u with
  | VObject props => default VUndefined (props !! "role")
  | _ => VUndefined
  end.

Definition hasAdminRole (u : value) : bool :=
  match roleOf u with
  | VString r => String.eqb r "owner" || String.eqb r "admin"
  | _ => false
  end.

(** A successful status: in the 2xx range, which leaves 401 and 403 out. *)
Definition successful (r : Response) : bool :=
  (200 <=? status r) && (status r <=? 299).

(** The response declares a JSON body. *)
Definition declaresJson (r : Response) : bool :=
  match resp_headers r !! "content-type" with
  | Some ct => includes ct "application/json"
  | None => false
  end.

Inductive VerificationOutcome : Type :=
  | Unauthenticated
  | MalformedResponse
  | TransportError
  | Authenticated (user : value).

(** Steps 4 to 9 of the identity verifier. *)
Definition outcomeOf (fetched : Completion Response) : VerificationOutcome :=
  match fetched with
  | Throw _ => TransportError
  | Normal r =>
      if negb (successful r) then Unauthenticated
      else if negb (declaresJson r) then MalformedResponse
      else
        match json_result r with
        | Throw _ => MalformedResponse
        | Normal parsed =>
            if isUserRecord (candidate parsed)
            then Authenticated (candidate parsed)
            else Unauthenticated
        end
  end.

Definition forbidden : NextResponse :=
  Plain "Forbidden: Admin or Owner access required" 403.

(** The authorization decision. *)
Definition decision (request : NextRequest) (o : VerificationOutcome) : NextResponse :=
  match o with
  | Authenticated u => if hasAdminRole u then Next else forbidden
  | _ => Redirect (loginUrl request)
  end.

(** The one outbound request of a guarded evaluation. *)
Definition identityRequest (request : NextRequest) : FetchRequest :=
  {| fetch_url := apiUrl request;
     fetch_method := "GET";
     fetch_headers := outboundHeaders request;
     fetch_body := None |}.

(** Whether [json()] is reached for a given completion of the call. *)
Definition bodyIsRead (fetched : Completion Response) : bool :=
  match fetched with
  | Normal r => successful r && declaresJson r
  | Throw _ => false
  end.

(** A guarded path: not bypassed, and a documentation route. *)
Definition isGuarded (pathname : string) : bool :=
  negb (isBypassed pathname) && isFumadocsRoute pathname.

(** [s] begins with [p]; [needle] occurs in [s]. *)
Definition StartsWith (s p : string) : Prop := ∃ rest, s = p +:+ rest.
Definition Contains (s needle : string) : Prop :=
  ∃ before after, s = before +:+ needle +:+ after.

(** The bypass prefixes and the guarded rules, as section 6 lists them. *)
Definition BypassPath (p : string) : Prop :=
  StartsWith p "/admin" ∨ StartsWith p "/api" ∨ StartsWith p "/_next" ∨
  StartsWith p "/favicon.ico" ∨ StartsWith p "/demo.mp4".
Definition GuardedRule (p : string) : Prop :=
  p = "/" ∨ StartsWith p "/docs" ∨ StartsWith p "/llms.txt" ∨
  StartsWith p "/llms.mdx" ∨ StartsWith p "/llms-full.txt" ∨
  StartsWith p "/docs-og".
Definition GuardedPath (p : string) : Prop := GuardedRule p ∧ ¬ BypassPath p.

(** The failure modes of verification (section 7), for the completion
    [fetched] of the identity call. *)
Inductive FailureMode (fetched : Completion Response) : Prop :=
  | TransportFailure (e : Error) :
      fetched = Throw e → FailureMode fetched
  | BadStatus (r : Response) :
      fetched = Normal r →
      ok r = false ∨ status r = 401 ∨ status r = 403 →
      FailureMode fetched
  | NotJson (r : Response) :
      fetched = Normal r →
      (∀ ct, resp_headers r !! "content-type" = Some ct →
             ¬ Contains ct "application/json") →
      FailureMode fetched
  | UnparsableBody (r : Response) (e : Error) :
      fetched = Normal r → json_result r = Throw e → FailureMode fetched
  | InvalidUser (r : Response) (parsed : value) :
      fetched = Normal r → json_result r = Normal parsed →
      (∀ props, candidate parsed = VObject props → props !! "id" = None) →
      FailureMode fetched.

(** The clean-success path: the call returns a successful status and a
    declared JSON body that parses, and the candidate is a record [props]
    with an [id] field. *)
Definition Verified (fetched : Completion Response) (props : gmap string value)
  : Prop :=
  ∃ r ct parsed,
    fetched = Normal r ∧
    200 ≤ status r ≤ 299 ∧
    resp_headers r !! "content-type" = Some ct ∧
    Contains ct "application/json" ∧
    json_result r = Normal parsed ∧
    candidate parsed = VObject props ∧
    is_Some (props !! "id").

Definition AdminRole (props : gmap string value) : Prop :=
  props !! "role" = Some (VString "owner") ∨
  props !! "role" = Some (VString "admin").

(** The outbound calls recorded in a trace. *)
Definition fetches (tr : list Event) : list FetchRequest :=
  flat_map (fun e => match e with EvFetch rq => [rq] | EvJson => [] end) tr.

(** Two evaluations in a row, the second starting from the trace the first
    one left. *)
Definition twice (env : Env) (request : NextRequest)
  : M (NextResponse * NextResponse) :=
  first ← middleware env request;
  second ← middleware env request;
  mret (first, second).

(** ** Sample requests and endpoint behaviours *)

(** The [NextURL] of a page request for [path] on the sample site: the
    trailing-slash state is read off the path, and there is no build id. *)
Definition siteUrl (path : string) (query : list (string * string)) : URL :=
  {| protocol := "https:"; hostname := "docs.example.com"; port := "";
     pathname := path; searchParams := query; hash := "";
     trailingSlash := negb (String.eqb path "/") && endsWithSlash path;
     buildId := None |}.

(** The [NextURL] of a data request of build [id] for the page [path]. *)
Definition dataUrl (id path : string) : URL :=
  {| protocol := "https:"; hostname := "docs.example.com"; port := "";
     pathname := path; searchParams := []; hash := "";
     trailingSlash := false;
     buildId := Some id |}.

Definition requestTo (path : string) (cookie : option string) : NextRequest :=
  {| nextUrl := siteUrl path [];
     req_headers :=
       match cookie with
       | Some c => {[ "cookie" := c; "user-agent" := "curl/8.5.0" ]}
       | None => {[ "user-agent" := "curl/8.5.0" ]}
       end |}.

Definition jsonResponse (code : Z) (body : value) : Response :=
  {| status := code;
     resp_headers := {[ "content-type" := "application/json; charset=utf-8" ]};
     json_result := Normal body |}.

Definition htmlResponse : Response :=
  {| status := 200;
     resp_headers := {[ "content-type" := "text/html" ]};
     json_result := Throw SyntaxError |}.

Definition answering (r : Response) : Env := fun _ => Normal r.
Definition unreachable : Env := fun _ => Throw NetworkError.

Definition userRecord (id role : string) : value :=
  VObject {[ "id" := VString id; "role" := VString role ]}.

(** ** The path filter of [config.matcher]

    The pattern of line 135 as a regular expression, with the backtracking
    semantics of the language: [run r s] lists what is left of [s] after
    each way of matching [r] at its start. *)

Inductive regex : Type :=
  | Chars (s : string)        (* literal characters *)
  | Dot                       (* [.] *)
  | Seq (r1 r2 : regex)
  | Alt (r1 r2 : regex)       (* [r1|r2] *)
  | Star (r : regex)          (* [r*] *)
  | NotAhead (r : regex)      (* [(?!r)] *)
  | EndOfInput.               (* [$] *)

(** [.] matches any character but a line terminator; a URL path is ASCII,
    where these are line feed and carriage return. *)
Definition isLineTerminator (c : ascii) : bool :=
  Ascii.eqb c "010" || Ascii.eqb c "013".

Fixpoint noLineTerminator (s : string) : bool :=
  match s with
  | EmptyString => true
  | String c rest => negb (isLineTerminator c) && noLineTerminator rest
  end.

(** What follows the literal [p] at the start of [s], if [s] starts with it. *)
Fixpoint dropPrefix (p s : string) : option string :=
  match p, s with
  | EmptyString, _ => Some s
  | String a p', String b s' => if Ascii.eqb a b then dropPrefix p' s' else None
  | String _ _, EmptyString => None
  end.

(** Zero or more rounds of [step]; a round that consumes nothing is not
    repeated, so [fuel] = the length of the input is enough. *)
Fixpoint iterate (step : string → list string) (fuel : nat) (s : string)
  : list string :=
  s :: match fuel with
       | O => []
       | S fuel' =>
           flat_map (iterate step fuel')
             (List.filter
                (fun t => (String.length t <? String.length s)%nat) (step s))
       end.

Fixpoint run (r : regex) (s : string) : list string :=
  match r with
  | Chars l =>
      match dropPrefix l s with
      | Some rest => [rest]
      | None => []
      end
  | Dot =>
      match s with
      | String c rest => if isLineTerminator c then [] else [rest]
      | EmptyString => []
      end
  | Seq r1 r2 => flat_map (run r2) (run r1 s)
  | Alt r1 r2 => run r1 s ++ run r2 s
  | Star r1 => iterate (run r1) (String.length s) s
  | NotAhead r1 =>
      match run r1 s with
      | [] => [s]
      | _ :: _ => []
      end
  | EndOfInput =>
      match s with
      | EmptyString => [s]
      | String _ _ => []
      end
  end.

(** The pattern matches the whole of [s]: anchored at both ends, and
    case-sensitive. *)
Definition matches (r : regex) (s : string) : bool :=
  existsb (fun rest => String.eqb rest "") (run r s).

(** The group [svg|png|jpg|jpeg|gif|webp|ico|css|js]. *)
Definition staticSuffix : regex :=
  Alt (Chars "svg") (Alt (Chars "png") (Alt (Chars "jpg") (Alt (Chars "jpeg")
  (Alt (Chars "gif") (Alt (Chars "webp") (Alt (Chars "ico") (Alt (Chars "css")
  (Chars "js")))))))).

(** The four alternatives of the lookahead: two literal prefixes,
    [favicon.ico] (whose dot is not escaped in the source, so it stands for
    any character), and any run of characters followed by a literal dot,
    one of the suffixes and the end of the input. *)
Definition excluded : regex :=
  Alt (Chars "_next/static")
  (Alt (Chars "_next/image")
  (Alt (Seq (Chars "favicon") (Seq Dot (Chars "ico")))
       (Seq (Star Dot) (Seq (Chars ".") (Seq staticSuffix EndOfInput))))).

(** The whole pattern of line 135: a slash, the negative lookahead, then
    any run of characters. *)
Definition matcher : regex :=
  Seq (Chars "/") (Seq (NotAhead excluded) (Star Dot)).

(** The middleware is run for the paths the pattern matches. *)
Definition matched (pathname : string) : bool := matches matcher pathname.

(** The extensions of the pattern, and a path that ends with a dot and one
    of them. *)
Definition staticExtensions : list string :=
  ["svg"; "png"; "jpg"; "jpeg"; "gif"; "webp"; "ico"; "css"; "js"].
Definition StaticFile (s : string) : Prop :=
  ∃ stem ext, s = stem +:+ "." +:+ ext ∧ In ext staticExtensions.

(** The lookahead of the pattern, in words: what is left after the slash
    starts with one of the two framework prefixes, or with [favicon], one
    character and [ico], or ends with a dot and a static extension. *)
Definition Excluded (rest : string) : Prop :=
  StartsWith rest "_next/static" ∨
  StartsWith rest "_next/image" ∨
  (∃ c after, rest = "favicon" +:+ String c ("ico" +:+ after) ∧
              isLineTerminator c = false) ∨
  (∃ stem ext, rest = stem +:+ "." +:+ ext ∧
               noLineTerminator stem = true ∧ In ext staticExtensions).

(** * Properties *)

(** ** Strings and query parameters *)

Lemma prefix_append (p rest : string) : String.prefix p (p +:+ rest) = true.
Proof.
  induction p as [|a p IH].
  - destruct rest; reflexivity.
  - change (String a p +:+ rest) with (String a (p +:+ rest)). simpl.
    destruct (ascii_dec a a); [exact IH | congruence].
Qed.

Lemma startsWith_spec (s p : string) : startsWith s p = true ↔ StartsWith s p.
Proof.
  unfold startsWith, StartsWith. split.
  - revert s. induction p as [|a p IH]; intros s H.
    + exists s. reflexivity.
    + destruct s as [|b s]; simpl in H; [discriminate|].
      destruct (ascii_dec a b) as [->|]; [|discriminate].
      destruct (IH _ H) as [rest ->]. exists rest. reflexivity.
  - intros [rest ->]. apply prefix_append.
Qed.

Lemma includes_unfold (s needle : string) :
  includes s needle =
  startsWith s needle ||
  match s with
  | EmptyString => false
  | String _ rest => includes rest needle
  end.
Proof. destruct s; reflexivity. Qed.

Lemma includes_spec (s needle : string) :
  includes s needle = true ↔ Contains s needle.
Proof.
  unfold Contains. split.
  - induction s as [|c s IH]; rewrite includes_unfold; intros H.
    + rewrite orb_false_r in H. apply startsWith_spec in H.
      destruct H as [rest E]. exists "", rest. exact E.
    + apply orb_true_iff in H as [H|H].
      * apply startsWith_spec in H.
        destruct H as [rest E]. exists "", rest. exact E.
      * destruct (IH H) as (before & after & ->).
        exists (String c before), after. reflexivity.
  - intros (before & after & ->).
    induction before as [|c before IH].
    + change ("" +:+ needle +:+ after) with (needle +:+ after).
      rewrite includes_unfold. unfold startsWith.
      rewrite prefix_append. reflexivity.
    + change (String c before +:+ needle +:+ after)
        with (String c (before +:+ needle +:+ after)).
      rewrite includes_unfold, IH. apply orb_true_r.
Qed.

Lemma filter_other_name (name : string) (l : list (string * string)) :
  List.filter (fun p => String.eqb (fst p) name)
    (List.filter (fun p => negb (String.eqb (fst p) name)) l) = [].
Proof.
  induction l as [|[n w] l IH]; simpl; [reflexivity|].
  destruct (String.eqb n name) eqn:E; simpl; [exact IH|].
  rewrite E. exact IH.
Qed.

Lemma searchParams_getAll_set (name v : string) (l : list (string * string)) :
  searchParams_getAll name (searchParams_set name v l) = [v].
Proof.
  unfold searchParams_getAll.
  induction l as [|[n w] l IH]; simpl.
  - rewrite String.eqb_refl. reflexivity.
  - destruct (String.eqb n name) eqn:E; simpl.
    + rewrite String.eqb_refl. simpl. rewrite filter_other_name. reflexivity.
    + rewrite E. exact IH.
Qed.

Lemma searchParams_get_set (name v : string) (l : list (string * string)) :
  searchParams_get name (searchParams_set name v l) = Some v.
Proof. unfold searchParams_get. rewrite searchParams_getAll_set. reflexivity. Qed.

(** ** Concatenation and the written-out path *)

Lemma append_nil (t : string) : "" +:+ t = t.
Proof. reflexivity. Qed.

Lemma append_cons (c : ascii) (s t : string) :
  String c s +:+ t = String c (s +:+ t).
Proof. reflexivity. Qed.

Lemma append_assoc (a b c : string) : (a +:+ b) +:+ c = a +:+ b +:+ c.
Proof.
  induction a as [|x a IH]; [reflexivity|].
  rewrite !append_cons, IH. reflexivity.
Qed.

Lemma append_empty (a b : string) : a +:+ b = "" → a = "" ∧ b = "".
Proof. destruct a; [rewrite append_nil; auto | rewrite append_cons; discriminate]. Qed.

Lemma length_append (a b : string) :
  String.length (a +:+ b) = (String.length a + String.length b)%nat.
Proof.
  induction a as [|x a IH]; [reflexivity|].
  rewrite append_cons. simpl. rewrite IH. reflexivity.
Qed.

Lemma append_nil_r (s : string) : s +:+ "" = s.
Proof.
  induction s as [|c s IH]; [reflexivity|]. rewrite append_cons, IH. reflexivity.
Qed.









(** ** Path classification *)

Lemma isBypassed_spec (p : string) : isBypassed p = true ↔ BypassPath p.
Proof.
  unfold isBypassed, BypassPath.
  rewrite !orb_true_iff, !startsWith_spec. tauto.
Qed.

Lemma isFumadocsRoute_spec (p : string) : isFumadocsRoute p = true ↔ GuardedRule p.
Proof.
  unfold isFumadocsRoute, GuardedRule.
  rewrite !orb_true_iff, !startsWith_spec, String.eqb_eq. tauto.
Qed.

Lemma isGuarded_spec (p : string) : isGuarded p = true ↔ GuardedPath p.
Proof.
  unfold isGuarded, GuardedPath.
  rewrite andb_true_iff, negb_true_iff, isFumadocsRoute_spec.
  rewrite <- isBypassed_spec. destruct (isBypassed p); intuition congruence.
Qed.

(** ** The envelope and the user check *)

(** The tests of lines 79-86 never throw, and select the candidate by the
    stated precedence. *)
Lemma unwrap_candidate (responseData : value) :
  unwrap responseData = Normal (candidate responseData).
Proof.
  destruct responseData as [| |b|x|s|elems|props]; try reflexivity.
  - destruct b; reflexivity.
  - destruct x; reflexivity.
  - unfold unwrap. simpl. destruct (negb (String.eqb s "")); reflexivity.
  - unfold unwrap, candidate, truthyField, firstOfDocs. simpl.
    destruct (props !! "user") as [u|]; simpl.
    + destruct (truthy u); simpl; [reflexivity|].
      destruct (props !! "docs") as [d|]; simpl.
      * destruct d as [| | | | |[|first rest]|]; simpl;
          try reflexivity;
          (destruct (props !! "doc") as [d|]; simpl; [|reflexivity];
           destruct (truthy d); reflexivity).
      * destruct (props !! "doc") as [d|]; simpl; [|reflexivity].
        destruct (truthy d); reflexivity.
    + destruct (props !! "docs") as [d|]; simpl.
      * destruct d as [| | | | |[|first rest]|]; simpl;
          try reflexivity;
          (destruct (props !! "doc") as [d|]; simpl; [|reflexivity];
           destruct (truthy d); reflexivity).
      * destruct (props !! "doc") as [d|]; simpl; [|reflexivity].
        destruct (truthy d); reflexivity.
Qed.

(** The three tests of line 90 never throw: [in] is only reached for an
    object. *)
Lemma notUser_spec (user : value) :
  notUser user = Normal (negb (isUserRecord user)).
Proof.
  destruct user as [| |b|x|s|elems|props]; try reflexivity.
  - destruct b; reflexivity.
  - destruct x; reflexivity.
  - unfold notUser. simpl. destruct (negb (String.eqb s "")); reflexivity.
Qed.

Lemma isUserRecord_spec (u : value) :
  isUserRecord u = true ↔ ∃ props, u = VObject props ∧ is_Some (props !! "id").
Proof.
  split.
  - destruct u; simpl; try discriminate.
    intros H. apply bool_decide_eq_true in H. eauto.
  - intros (props & -> & H). simpl. apply bool_decide_eq_true. exact H.
Qed.

Lemma isUserRecord_false (u : value) :
  isUserRecord u = false ↔ ∀ props, u = VObject props → props !! "id" = None.
Proof.
  split.
  - intros H props ->. simpl in H. apply bool_decide_eq_false in H.
    destruct (props !! "id"); [|reflexivity]. exfalso. apply H. eauto.
  - intros H. destruct (isUserRecord u) eqn:E; [|reflexivity].
    apply isUserRecord_spec in E as (props & -> & [x Hx]).
    rewrite (H props eq_refl) in Hx. discriminate.
Qed.

(** Reading [role] from an accepted candidate never throws. *)
Lemma get_role (user : value) :
  isUserRecord user = true → get user "role" = Normal (roleOf user).
Proof. destruct user; simpl; try discriminate. reflexivity. Qed.

Lemma hasAdminAccess_spec (user : value) :
  strict_eq_string (roleOf user) "owner" || strict_eq_string (roleOf user) "admin"
  = hasAdminRole user.
Proof. unfold hasAdminRole. destruct (roleOf user); reflexivity. Qed.

Lemma hasAdminRole_spec (props : gmap string value) :
  hasAdminRole (VObject props) = true ↔ AdminRole props.
Proof.
  unfold hasAdminRole, AdminRole, roleOf.
  destruct (props !! "role") as [[| | | |r| |]|]; simpl;
    try (split; [discriminate | intros [?|?]; discriminate]).
  rewrite orb_true_iff, !String.eqb_eq.
  split; intros [H|H]; [left|right|left|right]; congruence.
Qed.

(** ** The status and content-type tests *)

Lemma status_test (r : Response) :
  negb (ok r) || (status r =? 401) || (status r =? 403) = negb (successful r).
Proof.
  unfold ok, successful.
  destruct (200 <=? status r) eqn:E1; destruct (status r <=? 299) eqn:E2;
    simpl; try reflexivity.
  apply Z.leb_le in E2.
  destruct (status r =? 401) eqn:E3; [apply Z.eqb_eq in E3; lia|].
  destruct (status r =? 403) eqn:E4; [apply Z.eqb_eq in E4; lia|].
  reflexivity.
Qed.

Lemma successful_spec (r : Response) :
  successful r = true ↔ 200 ≤ status r ≤ 299.
Proof. unfold successful. rewrite andb_true_iff, !Z.leb_le. tauto. Qed.

Lemma successful_false (r : Response) :
  successful r = false ↔ ok r = false ∨ status r = 401 ∨ status r = 403.
Proof.
  rewrite <- negb_true_iff, <- status_test, !orb_true_iff, negb_true_iff.
  rewrite !Z.eqb_eq. tauto.
Qed.

Lemma contentType_test (r : Response) :
  match resp_headers r !! "content-type" with
  | Some ct => String.eqb ct "" || negb (includes ct "application/json")
  | None => true
  end = negb (declaresJson r).
Proof.
  unfold declaresJson. destruct (resp_headers r !! "content-type") as [ct|];
    [|reflexivity].
  destruct (String.eqb ct "") eqn:E; [|reflexivity].
  apply String.eqb_eq in E. subst ct. reflexivity.
Qed.

Lemma declaresJson_spec (r : Response) :
  declaresJson r = true ↔
  ∃ ct, resp_headers r !! "content-type" = Some ct ∧ Contains ct "application/json".
Proof.
  unfold declaresJson. destruct (resp_headers r !! "content-type") as [ct|].
  - rewrite includes_spec. split; [eauto|]. intros (ct' & [= <-] & H). exact H.
  - split; [discriminate|]. intros (ct' & [=] & _).
Qed.

Lemma declaresJson_false (r : Response) :
  declaresJson r = false ↔
  ∀ ct, resp_headers r !! "content-type" = Some ct → ¬ Contains ct "application/json".
Proof.
  rewrite <- not_true_iff_false, declaresJson_spec. split.
  - intros H ct Hct Hc. apply H. eauto.
  - intros H (ct & Hct & Hc). exact (H ct Hct Hc).
Qed.

(** ** The run of the middleware *)

(** Bypassed and unguarded paths return at once and leave the trace as it
    was. *)
Lemma middleware_pass_through (env : Env) (request : NextRequest)
    (tr : list Event) :
  isGuarded (pathname (nextUrl request)) = false →
  middleware env request tr = (Normal Next, tr).
Proof.
  unfold isGuarded, middleware. intros H.
  destruct (isBypassed (pathname (nextUrl request))); [reflexivity|].
  simpl in H. rewrite H. reflexivity.
Qed.

(** A guarded path: one call, the body read when the response is a
    successful JSON one, and the verdict of the decision table. *)
Lemma middleware_guarded (env : Env) (request : NextRequest) (tr : list Event) :
  isGuarded (pathname (nextUrl request)) = true →
  middleware env request tr =
  (Normal (decision request (outcomeOf (env (identityRequest request)))),
   (tr ++ [EvFetch (identityRequest request)]) ++
   (if bodyIsRead (env (identityRequest request)) then [EvJson] else [])).
Proof.
  unfold isGuarded, middleware. intros H.
  apply andb_true_iff in H as [Hb Hf]. apply negb_true_iff in Hb.
  rewrite Hb, Hf. simpl.
  unfold try_catch, verify, mbind, M_bind, fetch.
  fold (identityRequest request).
  destruct (env (identityRequest request)) as [r|e]; simpl;
    [|rewrite app_nil_r; reflexivity].
  rewrite status_test.
  destruct (successful r) eqn:Hs; simpl; [|rewrite app_nil_r; reflexivity].
  rewrite contentType_test.
  destruct (declaresJson r) eqn:Hj; simpl; [|rewrite app_nil_r; reflexivity].
  unfold json, lift.
  destruct (json_result r) as [parsed|e]; simpl; [|reflexivity].
  rewrite unwrap_candidate, notUser_spec.
  destruct (isUserRecord (candidate parsed)) eqn:Hu; simpl; [|reflexivity].
  rewrite (get_role _ Hu), hasAdminAccess_spec.
  destruct (hasAdminRole (candidate parsed)); reflexivity.
Qed.

(** ** The verification outcome *)

Lemma outcomeOf_authenticated (fetched : Completion Response) (u : value) :
  outcomeOf fetched = Authenticated u ↔
  ∃ props, u = VObject props ∧ Verified fetched props.
Proof.
  unfold outcomeOf, Verified. split.
  - destruct fetched as [r|e]; [|discriminate].
    destruct (successful r) eqn:Hs; [|discriminate].
    destruct (declaresJson r) eqn:Hj; [|discriminate]. simpl.
    destruct (json_result r) as [parsed|e] eqn:Hp; [|discriminate].
    destruct (isUserRecord (candidate parsed)) eqn:Hu; [|discriminate].
    intros [= <-].
    apply isUserRecord_spec in Hu as (props & Hc & Hid).
    apply declaresJson_spec in Hj as (ct & Hct & Hin).
    apply successful_spec in Hs.
    exists props. split; [exact Hc|]. exists r, ct, parsed. auto 10.
  - intros (props & -> & r & ct & parsed & -> & Hs & Hct & Hin & Hp & Hc & Hid).
    apply successful_spec in Hs. rewrite Hs. simpl.
    assert (declaresJson r = true) as -> by (apply declaresJson_spec; eauto).
    simpl. rewrite Hp.
    assert (isUserRecord (candidate parsed) = true) as ->
      by (apply isUserRecord_spec; eauto).
    rewrite Hc. reflexivity.
Qed.

(** The failure modes are exactly the outcomes other than [Authenticated]. *)
Lemma outcomeOf_failure (fetched : Completion Response) :
  FailureMode fetched ↔ ∀ u, outcomeOf fetched ≠ Authenticated u.
Proof.
  split.
  - intros HF u Hu.
    apply outcomeOf_authenticated in Hu
      as (props & -> & r & ct & parsed & -> & Hs & Hct & Hin & Hp & Hc & Hid).
    destruct HF as [e E|r' E Hbad|r' E Hnj|r' e E Hthrow|r' parsed' E Hp' Hno];
      try discriminate; injection E as <-.
    + apply successful_false in Hbad.
      apply successful_spec in Hs. congruence.
    + exact (Hnj ct Hct Hin).
    + congruence.
    + assert (parsed' = parsed) as -> by congruence.
      rewrite (Hno props Hc) in Hid. destruct Hid as [x Hx]. discriminate.
  - unfold outcomeOf. destruct fetched as [r|e]; [|intros _; eapply TransportFailure; eauto].
    destruct (successful r) eqn:Hs;
      [|intros _; eapply BadStatus; [reflexivity | apply successful_false; exact Hs]].
    destruct (declaresJson r) eqn:Hj;
      [|intros _; eapply NotJson; [reflexivity | apply declaresJson_false; exact Hj]].
    simpl. destruct (json_result r) as [parsed|e] eqn:Hp;
      [|intros _; eapply UnparsableBody; eauto].
    destruct (isUserRecord (candidate parsed)) eqn:Hu.
    + intros H. exfalso. exact (H _ eq_refl).
    + intros _. eapply InvalidUser; [reflexivity | exact Hp |].
      apply isUserRecord_false. exact Hu.
Qed.

Lemma decision_failure (request : NextRequest) (o : VerificationOutcome) :
  (∀ u, o ≠ Authenticated u) → decision request o = Redirect (loginUrl request).
Proof. destruct o; try reflexivity. intros H. exfalso. exact (H _ eq_refl). Qed.

Lemma decision_authenticated (request : NextRequest) (props : gmap string value) :
  (AdminRole props → decision request (Authenticated (VObject props)) = Next) ∧
  (¬ AdminRole props → decision request (Authenticated (VObject props)) = forbidden).
Proof.
  simpl. destruct (hasAdminRole (VObject props)) eqn:E.
  - apply hasAdminRole_spec in E. tauto.
  - split; [|reflexivity]. intros H. apply hasAdminRole_spec in H. congruence.
Qed.

(** A failure mode and a verified record exclude each other. *)
Lemma failure_or_verified (fetched : Completion Response) :
  FailureMode fetched ∨ ∃ props, Verified fetched props.
Proof.
  destruct (outcomeOf fetched) as [| | |u] eqn:E;
    try (left; apply outcomeOf_failure; intros u; rewrite E; discriminate).
  right. apply outcomeOf_authenticated in E as (props & _ & H). eauto.
Qed.

Lemma verified_outcome (fetched : Completion Response) (props : gmap string value) :
  Verified fetched props → outcomeOf fetched = Authenticated (VObject props).
Proof. intros H. apply outcomeOf_authenticated. eauto. Qed.

(** The verdict of a guarded request, by cases. *)
Lemma guarded_failure (env : Env) (request : NextRequest) (tr : list Event) :
  GuardedPath (pathname (nextUrl request)) →
  FailureMode (env (identityRequest request)) →
  fst (middleware env request tr) = Normal (Redirect (loginUrl request)).
Proof.
  intros Hg HF. apply isGuarded_spec in Hg.
  rewrite (middleware_guarded _ _ _ Hg). simpl.
  rewrite decision_failure; [reflexivity|]. apply outcomeOf_failure. exact HF.
Qed.

Lemma guarded_verified (env : Env) (request : NextRequest) (tr : list Event)
    (props : gmap string value) :
  GuardedPath (pathname (nextUrl request)) →
  Verified (env (identityRequest request)) props →
  (AdminRole props → fst (middleware env request tr) = Normal Next) ∧
  (¬ AdminRole props → fst (middleware env request tr) = Normal forbidden).
Proof.
  intros Hg HV. apply isGuarded_spec in Hg.
  rewrite (middleware_guarded _ _ _ Hg). simpl.
  rewrite (verified_outcome _ _ HV).
  destruct (decision_authenticated request props) as [H1 H2].
  split; intros H; [rewrite (H1 H) | rewrite (H2 H)]; reflexivity.
Qed.

Lemma guarded_path (p : string) : isGuarded p = true → GuardedPath p.
Proof. apply isGuarded_spec. Qed.

Lemma contains_json (ct : string) :
  includes ct "application/json" = true → Contains ct "application/json".
Proof. apply includes_spec. Qed.

Lemma AdminRole_dec (props : gmap string value) : AdminRole props ∨ ¬ AdminRole props.
Proof.
  destruct (hasAdminRole (VObject props)) eqn:E.
  - left. apply hasAdminRole_spec. exact E.
  - right. intros H. apply hasAdminRole_spec in H. congruence.
Qed.

Lemma jsonResponse_verified (code : Z) (body : value) (rq : FetchRequest)
    (props : gmap string value) :
  200 ≤ code ≤ 299 →
  candidate body = VObject props →
  is_Some (props !! "id") →
  Verified (answering (jsonResponse code body) rq) props.
Proof.
  intros Hc Hb Hid.
  exists (jsonResponse code body), "application/json; charset=utf-8", body.
  repeat split; try assumption; try reflexivity; try apply Hc.
  apply contains_json. reflexivity.
Qed.

(** ** The claims *)

(** C1, as stated, fails: a successful JSON answer whose candidate has the
    role "admin" but no [id] field is redirected, not allowed. *)
Lemma role_without_id_counterexample :
  GuardedPath "/docs/intro" ∧
  (∃ r ct parsed props,
     answering (jsonResponse 200 (VObject {[ "role" := VString "admin" ]}))
       (identityRequest (requestTo "/docs/intro" (Some "sid=1"))) = Normal r ∧
     200 ≤ status r ≤ 299 ∧
     resp_headers r !! "content-type" = Some ct ∧
     Contains ct "application/json" ∧
     json_result r = Normal parsed ∧
     candidate parsed = VObject props ∧
     props !! "role" = Some (VString "admin")) ∧
  fst (middleware
         (answering (jsonResponse 200 (VObject {[ "role" := VString "admin" ]})))
         (requestTo "/docs/intro" (Some "sid=1")) [])
  = Normal (Redirect (siteUrl "/admin/login" [("redirect", "/docs/intro")])).
Proof.
  split; [apply guarded_path; reflexivity|]. split; [|reflexivity].
  eexists _, "application/json; charset=utf-8", _, _.
  repeat split; try reflexivity; try (simpl; lia).
  apply contains_json. reflexivity.
Qed.

(** C1 (amended): for a guarded request the verdict is pass-through exactly
    when the identity call returns a successful status with a declared JSON
    body that parses and whose candidate is a record with an [id] field and
    a role that is exactly "owner" or "admin"; no failure mode of
    verification produces pass-through. *)
Theorem allow_iff_verified_admin (env : Env) (request : NextRequest)
    (tr : list Event) :
  GuardedPath (pathname (nextUrl request)) →
  (fst (middleware env request tr) = Normal Next ↔
   ∃ props, Verified (env (identityRequest request)) props ∧ AdminRole props)
  ∧ (FailureMode (env (identityRequest request)) →
     fst (middleware env request tr) ≠ Normal Next).
Proof.
  intros Hg. split; [split|].
  - intros HN.
    destruct (failure_or_verified (env (identityRequest request)))
      as [HF|[props HV]].
    + rewrite (guarded_failure _ _ tr Hg HF) in HN. discriminate.
    + exists props. split; [exact HV|].
      destruct (AdminRole_dec props) as [Ha|Hna]; [exact Ha|].
      rewrite (proj2 (guarded_verified _ _ tr _ Hg HV) Hna) in HN. discriminate.
  - intros (props & HV & Ha). exact (proj1 (guarded_verified _ _ tr _ Hg HV) Ha).
  - intros HF. rewrite (guarded_failure _ _ tr Hg HF). discriminate.
Qed.

Lemma allow_iff_verified_admin_witness :
  (fst (middleware (answering (jsonResponse 200 (userRecord "42" "owner")))
          (requestTo "/docs/intro" (Some "sid=1")) []) = Normal Next ↔
   ∃ props,
     Verified (answering (jsonResponse 200 (userRecord "42" "owner"))
                 (identityRequest (requestTo "/docs/intro" (Some "sid=1")))) props
     ∧ AdminRole props)
  ∧ (FailureMode (answering (jsonResponse 200 (userRecord "42" "owner"))
                    (identityRequest (requestTo "/docs/intro" (Some "sid=1")))) →
     fst (middleware (answering (jsonResponse 200 (userRecord "42" "owner")))
            (requestTo "/docs/intro" (Some "sid=1")) []) ≠ Normal Next).
Proof.
  apply (allow_iff_verified_admin
           (answering (jsonResponse 200 (userRecord "42" "owner")))
           (requestTo "/docs/intro" (Some "sid=1")) []).
  apply guarded_path. reflexivity.
Defined.




(** C3: a path that starts with a bypass prefix, and a path that is neither
    bypassed nor guarded, passes through with no outbound call, whatever the
    headers and the endpoint. *)
Theorem bypassed_and_unguarded_pass_through (env : Env) (request : NextRequest)
    (tr : list Event) :
  BypassPath (pathname (nextUrl request)) ∨
  (¬ BypassPath (pathname (nextUrl request)) ∧
   ¬ GuardedRule (pathname (nextUrl request))) →
  middleware env request tr = (Normal Next, tr)
  ∧ fetches (snd (middleware env request tr)) = fetches tr.
Proof.
  intros H.
  assert (middleware env request tr = (Normal Next, tr)) as E.
  { apply middleware_pass_through.
    apply not_true_iff_false. rewrite isGuarded_spec. unfold GuardedPath. tauto. }
  rewrite E. split; reflexivity.
Qed.

Lemma bypassed_and_unguarded_pass_through_witness :
  middleware unreachable (requestTo "/about" (Some "sid=1")) []
  = (Normal Next, [])
  ∧ fetches (snd (middleware unreachable (requestTo "/about" (Some "sid=1")) []))
    = fetches [].
Proof.
  apply (bypassed_and_unguarded_pass_through unreachable
           (requestTo "/about" (Some "sid=1")) []).
  right. split.
  - rewrite <- isBypassed_spec. simpl. discriminate.
  - rewrite <- isFumadocsRoute_spec. simpl. discriminate.
Defined.

(** C4: once verification has reached a user record, the role decides, by
    exact comparison: "owner" or "admin" passes through, anything else
    (missing, null, empty, "Admin", "editor", ...) gets a 403 with the fixed
    plain-text body. *)
Theorem role_comparison_is_exact (env : Env) (request : NextRequest)
    (tr : list Event) (props : gmap string value) :
  GuardedPath (pathname (nextUrl request)) →
  Verified (env (identityRequest request)) props →
  ((props !! "role" = Some (VString "owner") ∨
    props !! "role" = Some (VString "admin")) →
   fst (middleware env request tr) = Normal Next)
  ∧ (¬ (props !! "role" = Some (VString "owner") ∨
        props !! "role" = Some (VString "admin")) →
     fst (middleware env request tr)
     = Normal (Plain "Forbidden: Admin or Owner access required" 403)).
Proof. intros Hg HV. exact (guarded_verified env request tr props Hg HV). Qed.

Lemma role_comparison_is_exact_witness :
  ((({[ "id" := VString "7"; "role" := VString "Admin" ]} : gmap string value)
      !! "role" = Some (VString "owner") ∨
    ({[ "id" := VString "7"; "role" := VString "Admin" ]} : gmap string value)
      !! "role" = Some (VString "admin")) →
   fst (middleware (answering (jsonResponse 200 (userRecord "7" "Admin")))
          (requestTo "/docs/x" (Some "sid=1")) []) = Normal Next)
  ∧ (¬ (({[ "id" := VString "7"; "role" := VString "Admin" ]} : gmap string value)
          !! "role" = Some (VString "owner") ∨
        ({[ "id" := VString "7"; "role" := VString "Admin" ]} : gmap string value)
          !! "role" = Some (VString "admin")) →
     fst (middleware (answering (jsonResponse 200 (userRecord "7" "Admin")))
            (requestTo "/docs/x" (Some "sid=1")) [])
     = Normal (Plain "Forbidden: Admin or Owner access required" 403)).
Proof.
  apply (role_comparison_is_exact
           (answering (jsonResponse 200 (userRecord "7" "Admin")))
           (requestTo "/docs/x" (Some "sid=1")) []).
  - apply guarded_path. reflexivity.
  - apply jsonResponse_verified; [lia | reflexivity | ].
    exists (VString "7"). reflexivity.
Defined.

(** C5, as stated, fails: a candidate whose [id] is the empty string is
    accepted as a user, and with the role "admin" it passes through. *)
Lemma empty_id_counterexample :
  GuardedPath "/docs" ∧
  (∃ props,
     candidate (userRecord "" "admin") = VObject props ∧
     props !! "id" = Some (VString "")) ∧
  middleware (answering (jsonResponse 200 (userRecord "" "admin")))
    (requestTo "/docs" (Some "sid=1")) []
  = (Normal Next,
     [EvFetch (identityRequest (requestTo "/docs" (Some "sid=1"))); EvJson]).
Proof.
  split; [apply guarded_path; reflexivity|]. split; [|reflexivity].
  eexists. split; reflexivity.
Qed.

(** C5 (amended): a candidate is accepted as a user exactly when it is a
    structured record that has an [id] field, whatever the value of that
    field. When the identity response parses to a candidate that is not
    such a record, the verdict is the redirect to the login page: not
    pass-through, not 403, and no exception. *)
Theorem candidate_needs_id_field (env : Env) (request : NextRequest)
    (tr : list Event) (r : Response) (ct : string) (parsed : value) :
  GuardedPath (pathname (nextUrl request)) →
  env (identityRequest request) = Normal r →
  200 ≤ status r ≤ 299 →
  resp_headers r !! "content-type" = Some ct →
  Contains ct "application/json" →
  json_result r = Normal parsed →
  ((∀ props, candidate parsed = VObject props → props !! "id" = None) →
   fst (middleware env request tr) = Normal (Redirect (loginUrl request)))
  ∧ (∀ props, candidate parsed = VObject props → is_Some (props !! "id") →
     fst (middleware env request tr) = Normal Next ∨
     fst (middleware env request tr) = Normal forbidden).
Proof.
  intros Hg He Hs Hct Hin Hp. split.
  - intros Hno. apply (guarded_failure _ _ tr Hg).
    exact (InvalidUser _ r parsed He Hp Hno).
  - intros props Hc Hid.
    assert (Verified (env (identityRequest request)) props) as HV
      by (exists r, ct, parsed; auto 10).
    destruct (guarded_verified _ _ tr _ Hg HV) as [H1 H2].
    destruct (AdminRole_dec props); auto.
Qed.

Lemma candidate_needs_id_field_witness :
  ((∀ props, candidate (VArray [userRecord "1" "owner"]) = VObject props →
             props !! "id" = None) →
   fst (middleware (answering (jsonResponse 200 (VArray [userRecord "1" "owner"])))
          (requestTo "/" None) [])
   = Normal (Redirect (loginUrl (requestTo "/" None))))
  ∧ (∀ props, candidate (VArray [userRecord "1" "owner"]) = VObject props →
              is_Some (props !! "id") →
     fst (middleware (answering (jsonResponse 200 (VArray [userRecord "1" "owner"])))
            (requestTo "/" None) []) = Normal Next ∨
     fst (middleware (answering (jsonResponse 200 (VArray [userRecord "1" "owner"])))
            (requestTo "/" None) []) = Normal forbidden).
Proof.
  apply (candidate_needs_id_field
           (answering (jsonResponse 200 (VArray [userRecord "1" "owner"])))
           (requestTo "/" None) []
           (jsonResponse 200 (VArray [userRecord "1" "owner"]))
           "application/json; charset=utf-8").
  - apply guarded_path. reflexivity.
  - reflexivity.
  - simpl. lia.
  - reflexivity.
  - apply contains_json. reflexivity.
  - reflexivity.
Defined.

(** C6: the envelope is removed by the fixed precedence user, docs, doc,
    bare value. For a parsed object: a truthy [user] field is the
    candidate; otherwise the first element of a [docs] field that is a
    non-empty array; otherwise a truthy [doc] field; otherwise the parsed
    value itself. A field that is present but falsy, and a [docs] field that
    is empty or not an array, fall through to the next rule; a value that
    is not an object is its own candidate. None of the tests throws. *)
Theorem unwrap_follows_precedence (parsed : value) :
  (∀ props, parsed = VObject props →
     (∀ u, props !! "user" = Some u → truthy u = true →
           unwrap parsed = Normal u)
     ∧ (FalsyField props "user" →
        ∀ first rest, props !! "docs" = Some (VArray (first :: rest)) →
                      unwrap parsed = Normal first)
     ∧ (FalsyField props "user" → NoFirstDoc props →
        ∀ d, props !! "doc" = Some d → truthy d = true →
             unwrap parsed = Normal d)
     ∧ (FalsyField props "user" → NoFirstDoc props → FalsyField props "doc" →
        unwrap parsed = Normal parsed))
  ∧ ((∀ props, parsed ≠ VObject props) → unwrap parsed = Normal parsed).
Proof.
  rewrite unwrap_candidate. split.
  - intros props ->. unfold candidate.
    assert (∀ key, FalsyField props key → truthyField props key = None) as Hfalsy.
    { intros key H. unfold truthyField.
      destruct (props !! key) as [v|] eqn:E; [|reflexivity].
      rewrite (H v E). reflexivity. }
    assert (NoFirstDoc props → firstOfDocs props = None) as Hdocs.
    { intros H. unfold firstOfDocs.
      destruct (props !! "docs") as [[| | | | |[|first rest]|]|] eqn:E;
        try reflexivity.
      destruct (H first rest E). }
    refine (conj _ (conj _ (conj _ _))).
    + intros u Hu Ht. unfold truthyField. rewrite Hu, Ht. reflexivity.
    + intros Hf first rest Hd. rewrite (Hfalsy _ Hf).
      unfold firstOfDocs. rewrite Hd. reflexivity.
    + intros Hf Hn d Hd Ht. rewrite (Hfalsy _ Hf), (Hdocs Hn).
      unfold truthyField. rewrite Hd, Ht. reflexivity.
    + intros Hf Hn Hf'. rewrite (Hfalsy _ Hf), (Hdocs Hn), (Hfalsy _ Hf').
      reflexivity.
  - intros H. destruct parsed; try reflexivity. destruct (H props eq_refl).
Qed.

Lemma unwrap_follows_precedence_witness :
  unwrap (VObject {[ "user" := VNull; "docs" := VArray [userRecord "7" "editor"] ]})
  = Normal (userRecord "7" "editor").
Proof.
  destruct (unwrap_follows_precedence
              (VObject {[ "user" := VNull;
                          "docs" := VArray [userRecord "7" "editor"] ]}))
    as [Hobject _].
  destruct (Hobject _ eq_refl) as (_ & Hdocs & _).
  apply Hdocs with (rest := []).
  - intros v Hv. vm_compute in Hv. injection Hv as <-. reflexivity.
  - reflexivity.
Defined.




(** C8: whatever the request and whatever the endpoint does, the middleware
    completes normally, with one of three responses: pass-through, the
    redirect to the login page, or the 403. *)
Theorem middleware_never_throws (env : Env) (request : NextRequest)
    (tr : list Event) :
  ∃ response tr',
    middleware env request tr = (Normal response, tr')
    ∧ (response = Next
       ∨ response = Redirect (loginUrl request)
       ∨ response = Plain "Forbidden: Admin or Owner access required" 403).
Proof.
  destruct (isGuarded (pathname (nextUrl request))) eqn:Hg.
  - rewrite (middleware_guarded _ _ _ Hg). eexists _, _. split; [reflexivity|].
    destruct (outcomeOf (env (identityRequest request))) as [| | |u]; simpl; auto.
    destruct (hasAdminRole u); auto.
  - rewrite (middleware_pass_through _ _ _ Hg). eauto.
Qed.

(** C9: the verdict is a function of the request URL, the cookie and
    user-agent headers and the answer of the identity endpoint: two
    evaluations that agree on these give the same verdict, whatever was
    evaluated before and whatever else differs. *)
Theorem verdict_is_deterministic (env1 env2 : Env) (request1 request2 : NextRequest)
    (tr1 tr2 : list Event) :
  nextUrl request1 = nextUrl request2 →
  req_headers request1 !! "cookie" = req_headers request2 !! "cookie" →
  req_headers request1 !! "user-agent" = req_headers request2 !! "user-agent" →
  env1 (identityRequest request1) = env2 (identityRequest request1) →
  fst (middleware env1 request1 tr1) = fst (middleware env2 request2 tr2).
Proof.
  intros Hu Hc Ha He.
  assert (identityRequest request2 = identityRequest request1) as Hrq.
  { unfold identityRequest, apiUrl, outboundHeaders. rewrite Hu, Hc, Ha. reflexivity. }
  assert (loginUrl request2 = loginUrl request1) as Hl.
  { unfold loginUrl. rewrite Hu. reflexivity. }
  destruct (isGuarded (pathname (nextUrl request1))) eqn:Hg.
  - rewrite (middleware_guarded env1 request1 tr1 Hg).
    rewrite Hu in Hg. rewrite (middleware_guarded env2 request2 tr2 Hg).
    simpl. rewrite Hrq, He.
    destruct (outcomeOf (env2 (identityRequest request1))); simpl;
      rewrite ?Hl; reflexivity.
  - rewrite (middleware_pass_through env1 request1 tr1 Hg).
    rewrite Hu in Hg. rewrite (middleware_pass_through env2 request2 tr2 Hg).
    reflexivity.
Qed.

(** Run twice in a row on the same request, the middleware gives the same
    verdict both times. *)
Lemma twice_same_verdict (env : Env) (request : NextRequest) (tr : list Event) :
  ∃ response tr', twice env request tr = (Normal (response, response), tr').
Proof.
  unfold twice, mbind, M_bind.
  destruct (isGuarded (pathname (nextUrl request))) eqn:Hg.
  - rewrite (middleware_guarded _ _ tr Hg).
    rewrite (middleware_guarded _ _ _ Hg). eauto.
  - rewrite (middleware_pass_through _ _ tr Hg).
    rewrite (middleware_pass_through _ _ _ Hg). eauto.
Qed.

(** C10: after a successful status, [json()] is called exactly when the
    content-type header is present and contains "application/json"
    somewhere in its value; a missing header, or a value without that
    substring, gives the redirect to the login page and the body is left
    unread. *)
Theorem body_parsed_iff_json_declared (env : Env) (request : NextRequest)
    (tr : list Event) (r : Response) :
  GuardedPath (pathname (nextUrl request)) →
  env (identityRequest request) = Normal r →
  200 ≤ status r ≤ 299 →
  ((∃ ct, resp_headers r !! "content-type" = Some ct ∧
          Contains ct "application/json") →
   snd (middleware env request tr)
   = tr ++ [EvFetch (identityRequest request); EvJson])
  ∧ ((∀ ct, resp_headers r !! "content-type" = Some ct →
            ¬ Contains ct "application/json") →
     middleware env request tr
     = (Normal (Redirect (loginUrl request)),
        tr ++ [EvFetch (identityRequest request)])).
Proof.
  intros Hg He Hs. apply isGuarded_spec in Hg. apply successful_spec in Hs.
  rewrite (middleware_guarded _ _ _ Hg), He. unfold bodyIsRead, outcomeOf.
  rewrite Hs. simpl. split.
  - intros Hj. apply declaresJson_spec in Hj. rewrite Hj.
    rewrite <- app_assoc. reflexivity.
  - intros Hj. apply declaresJson_false in Hj. rewrite Hj. simpl.
    rewrite app_nil_r. reflexivity.
Qed.

Lemma body_parsed_iff_json_declared_witness :
  ((∃ ct, resp_headers (jsonResponse 200 (userRecord "42" "admin"))
            !! "content-type" = Some ct ∧
          Contains ct "application/json") →
   snd (middleware (answering (jsonResponse 200 (userRecord "42" "admin")))
          (requestTo "/docs" None) [])
   = [] ++ [EvFetch (identityRequest (requestTo "/docs" None)); EvJson])
  ∧ ((∀ ct, resp_headers (jsonResponse 200 (userRecord "42" "admin"))
              !! "content-type" = Some ct →
            ¬ Contains ct "application/json") →
     middleware (answering (jsonResponse 200 (userRecord "42" "admin")))
       (requestTo "/docs" None) []
     = (Normal (Redirect (loginUrl (requestTo "/docs" None))),
        [] ++ [EvFetch (identityRequest (requestTo "/docs" None))])).
Proof.
  apply (body_parsed_iff_json_declared
           (answering (jsonResponse 200 (userRecord "42" "admin")))
           (requestTo "/docs" None) []
           (jsonResponse 200 (userRecord "42" "admin"))).
  - apply guarded_path. reflexivity.
  - reflexivity.
  - simpl. lia.
Defined.

Lemma verdict_is_deterministic_witness :
  fst (middleware (answering (jsonResponse 200 (userRecord "42" "admin")))
         (requestTo "/docs" (Some "sid=1")) [])
  = fst (middleware (answering (jsonResponse 200 (userRecord "42" "admin")))
           {| nextUrl := siteUrl "/docs" [];
              req_headers := {[ "cookie" := "sid=1";
                                "user-agent" := "curl/8.5.0";
                                "accept" := "text/html" ]} |}
           [EvFetch (identityRequest (requestTo "/" None)); EvJson]).
Proof.
  apply (verdict_is_deterministic
           (answering (jsonResponse 200 (userRecord "42" "admin")))
           (answering (jsonResponse 200 (userRecord "42" "admin")))
           (requestTo "/docs" (Some "sid=1"))
           {| nextUrl := siteUrl "/docs" [];
              req_headers := {[ "cookie" := "sid=1";
                                "user-agent" := "curl/8.5.0";
                                "accept" := "text/html" ]} |}
           [] [EvFetch (identityRequest (requestTo "/" None)); EvJson]);
    reflexivity.
Defined.

(** ** Worked examples *)

(** The testable properties 3 to 7 of the specification. *)
Example docs_intro_unauthorized :
  fst (middleware
         (answering (jsonResponse 401 (VObject {[ "message" := VString "Unauthorized" ]})))
         (requestTo "/docs/intro" None) [])
  = Normal (Redirect (siteUrl "/admin/login" [("redirect", "/docs/intro")])).
Proof. reflexivity. Qed.

Example root_admin_in_user_envelope :
  fst (middleware
         (answering (jsonResponse 200 (VObject {[ "user" := userRecord "42" "admin" ]})))
         (requestTo "/" (Some "sid=1")) [])
  = Normal Next.
Proof. reflexivity. Qed.

Example docs_editor_in_docs_envelope :
  fst (middleware
         (answering (jsonResponse 200
                       (VObject {[ "docs" := VArray [userRecord "7" "editor"] ]})))
         (requestTo "/docs/x" (Some "sid=1")) [])
  = Normal (Plain "Forbidden: Admin or Owner access required" 403).
Proof. reflexivity. Qed.

Example llms_full_transport_error :
  fst (middleware unreachable (requestTo "/llms-full.txt" None) [])
  = Normal (Redirect (siteUrl "/admin/login" [("redirect", "/llms-full.txt")])).
Proof. reflexivity. Qed.

Example docs_og_html_answer :
  middleware (answering htmlResponse) (requestTo "/docs-og/banner" None) []
  = (Normal (Redirect (siteUrl "/admin/login" [("redirect", "/docs-og/banner")])),
     [EvFetch (identityRequest (requestTo "/docs-og/banner" None))]).
Proof. reflexivity. Qed.

(** A query string of the request survives in the redirect, next to the
    [redirect] parameter, and an earlier [redirect] parameter is replaced. *)
Example redirect_keeps_other_parameters :
  fst (middleware unreachable
         {| nextUrl := siteUrl "/docs" [("redirect", "/x"); ("page", "2")];
            req_headers := ∅ |} [])
  = Normal (Redirect (siteUrl "/admin/login" [("redirect", "/docs"); ("page", "2")])).
Proof. reflexivity. Qed.

(** Bypass prefixes win, also for a path under the login page. *)
Example admin_login_bypassed :
  middleware unreachable (requestTo "/admin/login" None) [] = (Normal Next, []).
Proof. reflexivity. Qed.

(** Roles that are not exactly "owner" or "admin". *)
Example role_missing :
  fst (middleware (answering (jsonResponse 200 (VObject {[ "id" := VString "7" ]})))
         (requestTo "/docs" (Some "sid=1")) [])
  = Normal forbidden.
Proof. reflexivity. Qed.

Example role_null :
  fst (middleware
         (answering (jsonResponse 200 (VObject {[ "id" := VString "7"; "role" := VNull ]})))
         (requestTo "/docs" (Some "sid=1")) [])
  = Normal forbidden.
Proof. reflexivity. Qed.

Example role_empty :
  fst (middleware (answering (jsonResponse 200 (userRecord "7" "")))
         (requestTo "/docs" (Some "sid=1")) [])
  = Normal forbidden.
Proof. reflexivity. Qed.

Example role_capitalised :
  fst (middleware (answering (jsonResponse 200 (userRecord "7" "Admin")))
         (requestTo "/docs" (Some "sid=1")) [])
  = Normal forbidden.
Proof. reflexivity. Qed.

(** Fall-through in the envelope: a null [user] and an empty [docs] leave
    the choice to [doc]; a [docs] field that is not an array is skipped. *)
Example falsy_user_and_empty_docs :
  unwrap (VObject {[ "user" := VNull; "docs" := VArray [];
                     "doc" := userRecord "1" "owner" ]})
  = Normal (userRecord "1" "owner").
Proof. reflexivity. Qed.

Example docs_not_an_array :
  unwrap (VObject {[ "docs" := VString "none"; "id" := VString "1" ]})
  = Normal (VObject {[ "docs" := VString "none"; "id" := VString "1" ]}).
Proof. reflexivity. Qed.

Example user_before_docs :
  unwrap (VObject {[ "user" := userRecord "1" "owner";
                     "docs" := VArray [userRecord "2" "editor"] ]})
  = Normal (userRecord "1" "owner").
Proof. reflexivity. Qed.

(** Without the guards of lines 79 and 90 the [in] operator would throw on
    a primitive; with them a primitive body is a plain redirect. *)
Example in_on_primitive_throws : js_in "id" (VString "abc") = Throw TypeError.
Proof. reflexivity. Qed.

Example primitive_body_redirected :
  fst (middleware (answering (jsonResponse 200 (VString "abc")))
         (requestTo "/docs" None) [])
  = Normal (Redirect (siteUrl "/admin/login" [("redirect", "/docs")])).
Proof. reflexivity. Qed.

(** The written-out path of the call and of the redirect follows the state
    of the request URL: a request path with a slash at the end, and a data
    request of a build. *)
Example slash_request_call :
  formatPathname (fetch_url (identityRequest (requestTo "/docs/" None)))
  = "/api/users/me/".
Proof. reflexivity. Qed.

Example slash_request_redirect :
  fst (middleware unreachable (requestTo "/docs/" None) [])
  = Normal (Redirect (loginUrl (requestTo "/docs/" None)))
  ∧ formatPathname (loginUrl (requestTo "/docs/" None)) = "/admin/login/"
  ∧ searchParams (loginUrl (requestTo "/docs/" None)) = [("redirect", "/docs/")].
Proof. repeat split; reflexivity. Qed.

Example data_request_call_and_redirect :
  formatPathname
    (apiUrl {| nextUrl := dataUrl "build" "/docs"; req_headers := ∅ |})
  = "/_next/data/build/api/users/me.json"
  ∧ formatPathname
      (loginUrl {| nextUrl := dataUrl "build" "/docs"; req_headers := ∅ |})
    = "/_next/data/build/admin/login.json".
Proof. split; reflexivity. Qed.

Example request_paths_written_back :
  formatPathname (siteUrl "/docs/" []) = "/docs/"
  ∧ formatPathname (siteUrl "/docs" []) = "/docs"
  ∧ formatPathname (siteUrl "/" []) = "/"
  ∧ formatPathname (dataUrl "build" "/docs") = "/_next/data/build/docs.json"
  ∧ formatPathname (dataUrl "build" "/") = "/_next/data/build/index.json".
Proof. repeat split; reflexivity. Qed.

(** * Beyond the claims *)

(** ** The pattern matcher *)

Lemma noLineTerminator_append (a b : string) :
  noLineTerminator (a +:+ b) = noLineTerminator a && noLineTerminator b.
Proof.
  induction a as [|x a IH]; [reflexivity|].
  rewrite append_cons. simpl. rewrite IH, andb_assoc. reflexivity.
Qed.

Lemma dropPrefix_spec (p s t : string) : dropPrefix p s = Some t ↔ s = p +:+ t.
Proof.
  revert s. induction p as [|a p IH]; intros s.
  - rewrite append_nil. simpl. destruct s; split; congruence.
  - rewrite append_cons. destruct s as [|b s]; simpl; [split; discriminate|].
    destruct (Ascii.eqb a b) eqn:E.
    + apply Ascii.eqb_eq in E. subst b. rewrite IH. split; congruence.
    + apply Ascii.eqb_neq in E. split; [discriminate | congruence].
Qed.

Lemma run_Chars (l s t : string) : In t (run (Chars l) s) ↔ s = l +:+ t.
Proof.
  simpl. destruct (dropPrefix l s) as [rest|] eqn:E.
  - apply dropPrefix_spec in E. subst s. simpl. split.
    + intros [->|[]]. reflexivity.
    + intros H. left. exact (String.app_inj l _ _ H).
  - split; [intros []|]. intros H. apply dropPrefix_spec in H. congruence.
Qed.

Lemma run_Seq (r1 r2 : regex) (s t : string) :
  In t (run (Seq r1 r2) s) ↔ ∃ u, In u (run r1 s) ∧ In t (run r2 u).
Proof. simpl. apply in_flat_map. Qed.

Lemma run_Alt (r1 r2 : regex) (s t : string) :
  In t (run (Alt r1 r2) s) ↔ In t (run r1 s) ∨ In t (run r2 s).
Proof. simpl. apply in_app_iff. Qed.

Lemma run_EndOfInput (s t : string) : In t (run EndOfInput s) ↔ s = "" ∧ t = "".
Proof.
  destruct s; simpl.
  - split; [intros [<-|[]]; auto | intros [_ ->]; auto].
  - split; [intros [] | intros [[=] _]].
Qed.

Lemma run_Dot (s t : string) :
  In t (run Dot s) ↔ ∃ c, s = String c t ∧ isLineTerminator c = false.
Proof.
  destruct s as [|c s]; simpl.
  - split; [intros [] | intros (c & [=] & _)].
  - destruct (isLineTerminator c) eqn:E; simpl.
    + split; [intros [] | intros (c' & [= <- <-] & H); congruence].
    + split.
      * intros [<-|[]]. eauto.
      * intros (c' & [= <- <-] & _). auto.
Qed.

Lemma iterate_Dot (fuel : nat) (s t : string) :
  (String.length s ≤ fuel)%nat →
  In t (iterate (run Dot) fuel s) ↔
  ∃ before, s = before +:+ t ∧ noLineTerminator before = true.
Proof.
  revert s. induction fuel as [|fuel IH]; intros s Hlen.
  - destruct s; simpl in Hlen; [|lia]. simpl. split.
    + intros [<-|[]]. exists "". auto.
    + intros (before & H & _). symmetry in H.
      apply append_empty in H as [_ ->]. auto.
  - destruct s as [|c s].
    + simpl. split.
      * intros [<-|[]]. exists "". auto.
      * intros (before & H & _). symmetry in H.
        apply append_empty in H as [_ ->]. auto.
    + simpl in Hlen.
      change (iterate (run Dot) (S fuel) (String c s))
        with (String c s ::
              flat_map (iterate (run Dot) fuel)
                (List.filter
                   (fun t => (String.length t <? String.length (String c s))%nat)
                   (run Dot (String c s)))).
      simpl run. destruct (isLineTerminator c) eqn:E.
      * simpl. split.
        -- intros [<-|[]]. exists "". auto.
        -- intros (before & H & Hn). destruct before as [|b before].
           ++ rewrite append_nil in H. auto.
           ++ rewrite append_cons in H. injection H as <- _.
              simpl in Hn. rewrite E in Hn. discriminate.
      * simpl List.filter.
        assert ((String.length s <? S (String.length s))%nat = true) as ->
          by (apply Nat.ltb_lt; lia).
        simpl flat_map. rewrite app_nil_r. simpl In.
        rewrite IH by lia. split.
        -- intros [<-|(before & -> & Hn)].
           ++ exists "". auto.
           ++ exists (String c before). rewrite append_cons. split; [reflexivity|].
              simpl. rewrite E, Hn. reflexivity.
        -- intros (before & H & Hn). destruct before as [|b before].
           ++ rewrite append_nil in H. auto.
           ++ rewrite append_cons in H. injection H as <- ->.
              simpl in Hn. apply andb_true_iff in Hn as [_ Hn]. right. eauto.
Qed.

Lemma run_Star_Dot (s t : string) :
  In t (run (Star Dot) s) ↔
  ∃ before, s = before +:+ t ∧ noLineTerminator before = true.
Proof. apply iterate_Dot. reflexivity. Qed.

Lemma run_staticSuffix (s t : string) :
  In t (run staticSuffix s) ↔ ∃ ext, In ext staticExtensions ∧ s = ext +:+ t.
Proof.
  unfold staticSuffix, staticExtensions. rewrite !run_Alt, !run_Chars. split.
  - intros H. repeat (destruct H as [H|H]; [eexists; split; [|exact H]; simpl; tauto|]).
    eexists; split; [|exact H]; simpl; tauto.
  - intros (ext & Hin & ->). simpl in Hin.
    repeat (destruct Hin as [<-|Hin]; [tauto|]). destruct Hin.
Qed.

Lemma run_NotAhead (r : regex) (s t : string) :
  In t (run (NotAhead r) s) ↔ t = s ∧ ¬ ∃ u, In u (run r s).
Proof.
  simpl. destruct (run r s) as [|u l]; simpl.
  - split; [intros [<-|[]]; split; [reflexivity | intros [u []]] | intros [-> _]; auto].
  - split; [intros [] | intros [_ H]; apply H; eauto].
Qed.

Lemma excluded_spec (rest : string) :
  (∃ t, In t (run excluded rest)) ↔ Excluded rest.
Proof.
  unfold excluded, Excluded, StartsWith. split.
  - intros [t H].
    apply run_Alt in H as [H|H]; [apply run_Chars in H; eauto|].
    apply run_Alt in H as [H|H]; [apply run_Chars in H; eauto|].
    apply run_Alt in H as [H|H].
    + apply run_Seq in H as (u & Hu & H). apply run_Chars in Hu.
      apply run_Seq in H as (v & Hv & H). apply run_Dot in Hv as (c & -> & Hc).
      apply run_Chars in H. subst v rest. right. right. left. eauto.
    + apply run_Seq in H as (u & Hu & H).
      apply run_Star_Dot in Hu as (stem & -> & Hstem).
      apply run_Seq in H as (v & Hv & H). apply run_Chars in Hv. subst u.
      apply run_Seq in H as (w & Hw & H).
      apply run_staticSuffix in Hw as (ext & Hext & ->).
      apply run_EndOfInput in H as [-> ->]. rewrite append_nil_r.
      right. right. right. eauto.
  - intros [[t ->]|[[t ->]|[(c & after & -> & Hc)|(stem & ext & -> & Hs & He)]]].
    + exists t. apply run_Alt. left. apply run_Chars. reflexivity.
    + exists t. apply run_Alt. right. apply run_Alt. left.
      apply run_Chars. reflexivity.
    + exists after. do 2 (apply run_Alt; right). apply run_Alt. left.
      apply run_Seq. exists (String c ("ico" +:+ after)).
      split; [apply run_Chars; reflexivity|].
      apply run_Seq. exists ("ico" +:+ after).
      split; [apply run_Dot; eauto | apply run_Chars; reflexivity].
    + exists "". do 3 (apply run_Alt; right).
      apply run_Seq. exists ("." +:+ ext).
      split; [apply run_Star_Dot; eauto|].
      apply run_Seq. exists ext. split; [apply run_Chars; reflexivity|].
      apply run_Seq. exists "". split.
      * apply run_staticSuffix. exists ext. rewrite append_nil_r. auto.
      * apply run_EndOfInput. auto.
Qed.

Lemma matched_In (p : string) : matched p = true ↔ In "" (run matcher p).
Proof.
  unfold matched, matches. rewrite existsb_exists. split.
  - intros (t & Hin & Ht). apply String.eqb_eq in Ht. subst t. exact Hin.
  - intros H. exists "". auto.
Qed.

Lemma matcher_run_spec (p : string) :
  In "" (run matcher p) ↔
  ∃ rest, p = "/" +:+ rest ∧ noLineTerminator rest = true ∧ ¬ Excluded rest.
Proof.
  unfold matcher. split.
  - intros H. apply run_Seq in H as (u & Hu & H). apply run_Chars in Hu.
    apply run_Seq in H as (v & Hv & H). apply run_NotAhead in Hv as [-> Hno].
    apply run_Star_Dot in H as (before & -> & Hb). rewrite append_nil_r in *.
    exists before. rewrite <- excluded_spec. auto.
  - intros (rest & -> & Hn & Hno).
    apply run_Seq. exists rest. split; [apply run_Chars; reflexivity|].
    apply run_Seq. exists rest. split.
    + apply run_NotAhead. rewrite excluded_spec. auto.
    + apply run_Star_Dot. exists rest. rewrite append_nil_r. auto.
Qed.

(** A path whose second character is neither [_] nor [f] is only excluded
    as a static file. *)
Lemma matched_by_second_char (c : ascii) (tail : string) :
  c ≠ "_"%char → c ≠ "f"%char →
  noLineTerminator (String "/" (String c tail)) = true →
  ¬ StaticFile (String "/" (String c tail)) →
  In "" (run matcher (String "/" (String c tail))).
Proof.
  intros H1 H2 Hn Hs. apply matcher_run_spec. exists (String c tail).
  split; [reflexivity|]. split.
  - exact Hn.
  - intros [[t E]|[[t E]|[(x & after & E & _)|(stem & ext & E & _ & He)]]].
    + rewrite append_cons in E. congruence.
    + rewrite append_cons in E. congruence.
    + rewrite append_cons in E. congruence.
    + apply Hs. exists (String "/" stem), ext. rewrite append_cons, E. auto.
Qed.

(** Bring the leading characters of both sides of an equation between
    concatenations to the front. *)
Ltac expose_heads E :=
  repeat (rewrite append_cons in E || rewrite append_nil in E).

(** The pattern matches a path exactly when the path is a slash followed
    by a rest without line terminator that the lookahead does not exclude. *)
Theorem matcher_characterised (p : string) :
  matched p = true ↔
  ∃ rest, p = "/" +:+ rest ∧ noLineTerminator rest = true ∧ ¬ Excluded rest.
Proof. rewrite matched_In. apply matcher_run_spec. Qed.

(** A path that ends with a dot and one of the nine extensions is never
    matched, wherever it lies: the middleware is not run for it, also
    under the documentation prefixes. *)
Theorem static_files_are_not_matched (p : string) :
  StaticFile p → matched p = false.
Proof.
  intros (stem & ext & -> & Hext).
  apply not_true_iff_false. rewrite matched_In, matcher_run_spec.
  intros (rest & E & Hn & Hno). destruct stem as [|c stem].
  - expose_heads E. discriminate.
  - expose_heads E. injection E as -> <-.
    apply Hno. right. right. right. exists stem, ext.
    rewrite noLineTerminator_append in Hn.
    apply andb_true_iff in Hn as [Hn _]. auto.
Qed.

Lemma static_files_are_not_matched_witness : matched "/docs/logo.png" = false.
Proof.
  apply (static_files_are_not_matched "/docs/logo.png").
  exists "/docs/logo", "png". split; [reflexivity|]. simpl. tauto.
Defined.

(** A documentation route (without line terminator) reaches the middleware
    exactly when it is not a static file. *)
Theorem documentation_route_matched_iff (p : string) :
  isFumadocsRoute p = true →
  noLineTerminator p = true →
  (matched p = true ↔ ¬ StaticFile p).
Proof.
  intros Hg Hn. split.
  - intros Hm (stem & ext & -> & Hext).
    apply matched_In, matcher_run_spec in Hm as (rest & E & Hr & Hno).
    destruct stem as [|c stem].
    + expose_heads E. discriminate.
    + expose_heads E. injection E as -> <-.
      apply Hno. right. right. right. exists stem, ext.
      rewrite noLineTerminator_append in Hr.
      apply andb_true_iff in Hr as [Hr _]. auto.
  - intros Hs. apply matched_In.
    apply isFumadocsRoute_spec in Hg
      as [->|[[t ->]|[[t ->]|[[t ->]|[[t ->]|[t ->]]]]]].
    + apply matcher_run_spec. exists "". split; [reflexivity|].
      split; [reflexivity|].
      intros [[t E]|[[t E]|[(x & after & E & _)|(stem & ext & E & _ & He)]]];
        try (expose_heads E; discriminate).
      apply Hs. exists (String "/" stem), ext. rewrite append_cons, <- E. auto.
    + apply (matched_by_second_char "d" ("ocs" +:+ t)); auto; discriminate.
    + apply (matched_by_second_char "l" ("lms.txt" +:+ t)); auto; discriminate.
    + apply (matched_by_second_char "l" ("lms.mdx" +:+ t)); auto; discriminate.
    + apply (matched_by_second_char "l" ("lms-full.txt" +:+ t)); auto; discriminate.
    + apply (matched_by_second_char "d" ("ocs-og" +:+ t)); auto; discriminate.
Qed.

Lemma documentation_route_matched_iff_witness :
  matched "/docs/guide.js" = true ↔ ¬ StaticFile "/docs/guide.js".
Proof.
  apply (documentation_route_matched_iff "/docs/guide.js"); reflexivity.
Defined.

(** ** Redirects and the outbound call *)

Lemma filter_idempotent {A : Type} (f : A → bool) (l : list A) :
  List.filter f (List.filter f l) = List.filter f l.
Proof.
  induction l as [|x l IH]; [reflexivity|]. simpl.
  destruct (f x) eqn:E; simpl; rewrite ?E, IH; reflexivity.
Qed.

Lemma searchParams_set_others (name v : string) (l : list (string * string)) :
  List.filter (fun p => negb (String.eqb (fst p) name)) (searchParams_set name v l)
  = List.filter (fun p => negb (String.eqb (fst p) name)) l.
Proof.
  induction l as [|[n w] l IH]; simpl.
  - rewrite String.eqb_refl. reflexivity.
  - destruct (String.eqb n name) eqn:E; simpl.
    + rewrite String.eqb_refl. simpl. apply filter_idempotent.
    + rewrite E. simpl. rewrite IH. reflexivity.
Qed.

(** Every redirect the middleware issues goes to [loginUrl]. *)
Lemma redirect_location (env : Env) (request : NextRequest) (tr : list Event)
    (u : URL) :
  fst (middleware env request tr) = Normal (Redirect u) → u = loginUrl request.
Proof.
  destruct (isGuarded (pathname (nextUrl request))) eqn:Hg.
  - rewrite (middleware_guarded _ _ _ Hg). simpl.
    destruct (outcomeOf (env (identityRequest request))) as [| | |user]; simpl;
      try (intros [= <-]; reflexivity).
    destruct (hasAdminRole user); discriminate.
  - rewrite (middleware_pass_through _ _ _ Hg). discriminate.
Qed.

Lemma bypass_excludes_guarded (p : string) : BypassPath p → ¬ GuardedRule p.
Proof.
  intros [[t ->]|[[t ->]|[[t ->]|[[t ->]|[t ->]]]]]
         [E|[[u E]|[[u E]|[[u E]|[[u E]|[u E]]]]]];
    expose_heads E; congruence.
Qed.

(** Whenever the middleware redirects, the location has the protocol, host
    and port of the request, and carries every query parameter of the
    request other than [redirect], in the same order. *)
Theorem redirect_stays_on_origin (env : Env) (request : NextRequest)
    (tr : list Event) (u : URL) :
  fst (middleware env request tr) = Normal (Redirect u) →
  protocol u = protocol (nextUrl request)
  ∧ hostname u = hostname (nextUrl request)
  ∧ port u = port (nextUrl request)
  ∧ List.filter (fun p => negb (String.eqb (fst p) "redirect")) (searchParams u)
    = List.filter (fun p => negb (String.eqb (fst p) "redirect"))
        (searchParams (nextUrl request)).
Proof.
  intros H. apply redirect_location in H. subst u.
  do 3 (split; [reflexivity|]). apply searchParams_set_others.
Qed.

Lemma redirect_stays_on_origin_witness :
  protocol (siteUrl "/admin/login" [("redirect", "/docs"); ("page", "2")])
  = protocol (siteUrl "/docs" [("redirect", "/x"); ("page", "2")])
  ∧ hostname (siteUrl "/admin/login" [("redirect", "/docs"); ("page", "2")])
    = hostname (siteUrl "/docs" [("redirect", "/x"); ("page", "2")])
  ∧ port (siteUrl "/admin/login" [("redirect", "/docs"); ("page", "2")])
    = port (siteUrl "/docs" [("redirect", "/x"); ("page", "2")])
  ∧ List.filter (fun p => negb (String.eqb (fst p) "redirect"))
      (searchParams (siteUrl "/admin/login" [("redirect", "/docs"); ("page", "2")]))
    = List.filter (fun p => negb (String.eqb (fst p) "redirect"))
        (searchParams (siteUrl "/docs" [("redirect", "/x"); ("page", "2")])).
Proof.
  apply (redirect_stays_on_origin unreachable
           {| nextUrl := siteUrl "/docs" [("redirect", "/x"); ("page", "2")];
              req_headers := ∅ |} []).
  reflexivity.
Defined.





(** The two path tests never overlap, so the order of the tests does not
    change any verdict, and the identity endpoint is called exactly for the
    documentation routes. *)
Theorem bypass_and_guard_are_disjoint (env : Env) (request : NextRequest)
    (tr : list Event) :
  isBypassed (pathname (nextUrl request))
  && isFumadocsRoute (pathname (nextUrl request)) = false
  ∧ fetches (snd (middleware env request tr))
    = fetches tr ++
      (if isFumadocsRoute (pathname (nextUrl request))
       then [identityRequest request] else []).
Proof.
  assert (isBypassed (pathname (nextUrl request))
          && isFumadocsRoute (pathname (nextUrl request)) = false) as Hd.
  { apply not_true_iff_false. intros H. apply andb_true_iff in H as [Hb Hf].
    apply isBypassed_spec in Hb. apply isFumadocsRoute_spec in Hf.
    exact (bypass_excludes_guarded _ Hb Hf). }
  split; [exact Hd|].
  destruct (isFumadocsRoute (pathname (nextUrl request))) eqn:Hf.
  - rewrite andb_true_r in Hd.
    assert (isGuarded (pathname (nextUrl request)) = true) as Hg
      by (unfold isGuarded; rewrite Hd, Hf; reflexivity).
    rewrite (middleware_guarded _ _ _ Hg). simpl.
    unfold fetches. rewrite !flat_map_app. simpl.
    destruct (bodyIsRead _); simpl; rewrite app_nil_r; reflexivity.
  - assert (isGuarded (pathname (nextUrl request)) = false) as Hg
      by (unfold isGuarded; rewrite Hf; apply andb_false_r).
    rewrite (middleware_pass_through _ _ _ Hg). simpl.
    rewrite app_nil_r. reflexivity.
Qed.

(** The [/docs-og] test is subsumed by the [/docs] test: leaving it out
    gives the same classification. *)
Theorem docs_og_test_is_subsumed (p : string) :
  isFumadocsRoute p =
  startsWith p "/docs" || String.eqb p "/" || startsWith p "/llms.txt" ||
  startsWith p "/llms.mdx" || startsWith p "/llms-full.txt".
Proof.
  unfold isFumadocsRoute.
  destruct (startsWith p "/docs-og") eqn:E; [|apply orb_false_r].
  apply startsWith_spec in E as [t ->].
  assert (startsWith ("/docs-og" +:+ t) "/docs" = true) as ->
    by (apply startsWith_spec; exists ("-og" +:+ t); reflexivity).
  reflexivity.
Qed.

(** ** Verification *)

(** The envelope rules do not backtrack: once a truthy [user] field, or the
    first element of [docs], has been chosen, a choice that is not a record
    with an [id] is redirected, even when a later rule or the envelope
    itself would give a valid administrator. *)
Theorem envelope_does_not_backtrack (env : Env) (request : NextRequest)
    (tr : list Event) (r : Response) (ct : string) (props : gmap string value) :
  GuardedPath (pathname (nextUrl request)) →
  env (identityRequest request) = Normal r →
  200 ≤ status r ≤ 299 →
  resp_headers r !! "content-type" = Some ct →
  Contains ct "application/json" →
  json_result r = Normal (VObject props) →
  (∃ u, props !! "user" = Some u ∧ truthy u = true ∧
        ∀ q, u = VObject q → q !! "id" = None)
  ∨ (FalsyField props "user" ∧
     ∃ first rest, props !! "docs" = Some (VArray (first :: rest)) ∧
                   ∀ q, first = VObject q → q !! "id" = None) →
  fst (middleware env request tr) = Normal (Redirect (loginUrl request)).
Proof.
  intros Hg He Hs Hct Hin Hp Hchoice.
  apply (guarded_failure _ _ tr Hg).
  apply (InvalidUser _ r (VObject props) He Hp).
  unfold candidate, truthyField.
  destruct Hchoice as [(u & Hu & Ht & Hno)|(Hf & first & rest & Hd & Hno)].
  - rewrite Hu, Ht. exact Hno.
  - destruct (props !! "user") as [u|] eqn:Hu.
    + rewrite (Hf u Hu). unfold firstOfDocs. rewrite Hd. exact Hno.
    + unfold firstOfDocs. rewrite Hd. exact Hno.
Qed.

Lemma envelope_does_not_backtrack_witness :
  fst (middleware
         (answering (jsonResponse 200
            (VObject {[ "user" := VString "root"; "id" := VString "1";
                        "role" := VString "admin" ]})))
         (requestTo "/docs" (Some "sid=1")) [])
  = Normal (Redirect (loginUrl (requestTo "/docs" (Some "sid=1")))).
Proof.
  apply (envelope_does_not_backtrack
           (answering (jsonResponse 200
              (VObject {[ "user" := VString "root"; "id" := VString "1";
                          "role" := VString "admin" ]})))
           (requestTo "/docs" (Some "sid=1")) []
           (jsonResponse 200
              (VObject {[ "user" := VString "root"; "id" := VString "1";
                          "role" := VString "admin" ]}))
           "application/json; charset=utf-8"
           {[ "user" := VString "root"; "id" := VString "1";
              "role" := VString "admin" ]}).
  - apply guarded_path. reflexivity.
  - reflexivity.
  - simpl. lia.
  - reflexivity.
  - apply contains_json. reflexivity.
  - reflexivity.
  - left. exists (VString "root"). split; [reflexivity|].
    split; [reflexivity|]. intros q [=].
Defined.

(** When the call throws or the status is not in the 2xx range, the
    response is never inspected further: the effects of the evaluation are
    the one call, and the verdict is the redirect. *)
Theorem unsuccessful_call_leaves_body_unread (env : Env) (request : NextRequest)
    (tr : list Event) :
  GuardedPath (pathname (nextUrl request)) →
  (∃ e, env (identityRequest request) = Throw e)
  ∨ (∃ r, env (identityRequest request) = Normal r ∧ ¬ 200 ≤ status r ≤ 299) →
  middleware env request tr
  = (Normal (Redirect (loginUrl request)),
     tr ++ [EvFetch (identityRequest request)]).
Proof.
  intros Hg H. apply isGuarded_spec in Hg.
  rewrite (middleware_guarded _ _ _ Hg).
  destruct H as [[e ->]|(r & -> & Hs)]; simpl.
  - rewrite app_nil_r. reflexivity.
  - assert (successful r = false) as ->
      by (apply not_true_iff_false; rewrite successful_spec; exact Hs).
    simpl. rewrite app_nil_r. reflexivity.
Qed.

Lemma unsuccessful_call_leaves_body_unread_witness :
  middleware (answering (jsonResponse 500 (userRecord "42" "admin")))
    (requestTo "/docs" (Some "sid=1")) []
  = (Normal (Redirect (loginUrl (requestTo "/docs" (Some "sid=1")))),
     [] ++ [EvFetch (identityRequest (requestTo "/docs" (Some "sid=1")))]).
Proof.
  apply (unsuccessful_call_leaves_body_unread
           (answering (jsonResponse 500 (userRecord "42" "admin")))
           (requestTo "/docs" (Some "sid=1")) []).
  - apply guarded_path. reflexivity.
  - right. exists (jsonResponse 500 (userRecord "42" "admin")).
    split; [reflexivity|]. simpl. lia.
Defined.

(** On a guarded path, pass-through and the 403 are only ever returned
    after the call was made and the body was read. *)
Theorem verdict_other_than_redirect_reads_body (env : Env) (request : NextRequest)
    (tr : list Event) (response : NextResponse) :
  GuardedPath (pathname (nextUrl request)) →
  fst (middleware env request tr) = Normal response →
  (∀ u, response ≠ Redirect u) →
  snd (middleware env request tr)
  = tr ++ [EvFetch (identityRequest request); EvJson].
Proof.
  intros Hg H Hnr. apply isGuarded_spec in Hg.
  rewrite (middleware_guarded _ _ _ Hg) in *. simpl in *.
  injection H as <-.
  unfold outcomeOf, bodyIsRead in *.
  destruct (env (identityRequest request)) as [r|e];
    [|destruct (Hnr _ eq_refl)].
  destruct (successful r); simpl in *; [|destruct (Hnr _ eq_refl)].
  destruct (declaresJson r); simpl in *; [|destruct (Hnr _ eq_refl)].
  rewrite <- app_assoc. reflexivity.
Qed.

Lemma verdict_other_than_redirect_reads_body_witness :
  snd (middleware (answering (jsonResponse 200 (userRecord "7" "editor")))
         (requestTo "/docs" (Some "sid=1")) [])
  = [] ++ [EvFetch (identityRequest (requestTo "/docs" (Some "sid=1"))); EvJson].
Proof.
  apply (verdict_other_than_redirect_reads_body
           (answering (jsonResponse 200 (userRecord "7" "editor")))
           (requestTo "/docs" (Some "sid=1")) [] forbidden).
  - apply guarded_path. reflexivity.
  - reflexivity.
  - discriminate.
Defined.

(** ** Prefix tests *)

Lemma startsWith_append (p s prefix : string) :
  startsWith p prefix = true → startsWith (p +:+ s) prefix = true.
Proof.
  intros H. apply startsWith_spec in H as [t ->].
  apply startsWith_spec. exists (t +:+ s). apply append_assoc.
Qed.

(** The tests are prefix tests on characters, not on path segments: any
    continuation of a bypassed path is bypassed, and any continuation of a
    documentation route other than the root is a documentation route. *)
Theorem classification_extends (p s : string) :
  p ≠ "/" →
  (isBypassed p = true → isBypassed (p +:+ s) = true)
  ∧ (isFumadocsRoute p = true → isFumadocsRoute (p +:+ s) = true).
Proof.
  intros Hroot. split.
  - unfold isBypassed. rewrite !orb_true_iff.
    intros [[[[H|H]|H]|H]|H]; apply (startsWith_append _ s) in H; tauto.
  - unfold isFumadocsRoute. rewrite !orb_true_iff.
    intros [[[[[H|H]|H]|H]|H]|H];
      try (apply (startsWith_append _ s) in H; tauto).
    apply String.eqb_eq in H. contradiction.
Qed.

Lemma classification_extends_witness :
  (isBypassed "/docs" = true → isBypassed ("/docs" +:+ "-archive/2019") = true)
  ∧ (isFumadocsRoute "/docs" = true →
     isFumadocsRoute ("/docs" +:+ "-archive/2019") = true).
Proof.
  apply (classification_extends "/docs" "-archive/2019"). discriminate.
Defined.
